(** * venvmanager: the environment manager and the subprocess runner

    A shallow embedding of [envmanager/__init__.py] (class [EnvManager]),
    [envmanager/_pypi.py] ([get_package_info]) and [venvmngr/utils.py]
    ([run_subprocess_with_streams]), followed by the properties of the
    specification that can be settled on it.

    Python values are dynamically typed, so the JSON data handled by the
    program is kept as a value of [pyval] and every operation that Python
    would reject raises the exception Python raises.  Exceptions are an
    error monad.  Whatever lives outside the repository (the host OS, the
    file system, the child processes, the HTTP library, [json.loads],
    [str.lower], [os.path.join]) is one record, [Env]. *)

From Stdlib Require Import ZArith List String Ascii Bool Lia Arith.
Import ListNotations.

Local Open Scope string_scope.
Local Open Scope Z_scope.
Local Set Warnings "-register-all".

(** ** Python values *)

(** The values [json.loads] and [response.json()] produce, [None]
    included.  A dict is its items in insertion order, keys distinct.
    JSON numbers with a fraction or an exponent (Python floats) are left
    out of the model. *)
Inductive pyval : Type :=
| PyNone
| PyBool (b : bool)
| PyInt (n : Z)
| PyStr (s : string)
| PyList (xs : list pyval)
| PyDict (items : list (string * pyval)).

(** [d.get(k)] on the item list of a dict. *)
Fixpoint dict_get (k : string) (items : list (string * pyval)) : option pyval :=
  match items with
  | [] => None
  | (k', v) :: rest => if String.eqb k k' then Some v else dict_get k rest
  end.

(** Python's [==] on these values: [True == 1], lists element by
    element, dicts as sets of items. *)
Fixpoint py_eq (a b : pyval) {struct a} : bool :=
  match a, b with
  | PyNone, PyNone => true
  | PyBool x, PyBool y => Bool.eqb x y
  | PyBool x, PyInt n => Z.eqb (Z.b2z x) n
  | PyInt n, PyBool x => Z.eqb n (Z.b2z x)
  | PyInt m, PyInt n => Z.eqb m n
  | PyStr s, PyStr t => String.eqb s t
  | PyList xs, PyList ys =>
      (fix go (xs ys : list pyval) {struct xs} : bool :=
         match xs, ys with
         | [], [] => true
         | x :: xs', y :: ys' => py_eq x y && go xs' ys'
         | _, _ => false
         end) xs ys
  | PyDict kx, PyDict ky =>
      Nat.eqb (List.length kx) (List.length ky) &&
      (fix go (kx : list (string * pyval)) {struct kx} : bool :=
         match kx with
         | [] => true
         | (k, v) :: rest =>
             match dict_get k ky with
             | Some w => py_eq v w
             | None => false
             end && go rest
         end) kx
  | _, _ => false
  end.

(** Python's [!=]. *)
Definition py_ne (a b : pyval) : bool := negb (py_eq a b).

(** [x is None]. *)
Definition is_None (v : pyval) : bool :=
  match v with PyNone => true | _ => false end.

(** Truth value of an object in an [if]. *)
Definition py_truthy (v : pyval) : bool :=
  match v with
  | PyNone => false
  | PyBool b => b
  | PyInt n => negb (Z.eqb n 0)
  | PyStr s => negb (String.eqb s EmptyString)
  | PyList xs => match xs with [] => false | _ => true end
  | PyDict items => match items with [] => false | _ => true end
  end.

(** ** Exceptions *)

Inductive exn : Type :=
| FileNotFoundError (msg : string)
| PermissionError (msg : string)
| CalledProcessError (returncode : Z) (cmd : list string)
| JSONDecodeError (msg : string)
| ValueError (msg : string) (cause : option exn)
| KeyError (key : string)
| TypeError (msg : string)
| AttributeError (msg : string)
| ConnectionError (msg : string)
| HTTPError (status : Z)
| RequestsJSONDecodeError (msg : string)
| GetPackageInfoError (msg : string) (cause : option exn).

(** The classes an [except] clause of the program can name. *)
Inductive exn_class : Type :=
| CException
| COSError
| CFileNotFoundError
| CCalledProcessError
| CValueError
| CJSONDecodeError
| CLookupError
| CKeyError
| CTypeError
| CAttributeError
| CRequestException
| CPackackeException
| CGetPackageInfoError.

(** [isinstance e c]: an [except c] clause catches [e].
    [json.JSONDecodeError] derives from [ValueError];
    [requests.exceptions.JSONDecodeError] derives from both
    [RequestException] and [json.JSONDecodeError]; [HTTPError] and
    requests' [ConnectionError] derive from [RequestException], which
    derives from [OSError]. *)
Definition isinstance (e : exn) (c : exn_class) : bool :=
  match c with
  | CException => true
  | _ =>
      match e with
      | FileNotFoundError _ =>
          match c with COSError | CFileNotFoundError => true | _ => false end
      | PermissionError _ =>
          match c with COSError => true | _ => false end
      | CalledProcessError _ _ =>
          match c with CCalledProcessError => true | _ => false end
      | JSONDecodeError _ =>
          match c with CValueError | CJSONDecodeError => true | _ => false end
      | ValueError _ _ =>
          match c with CValueError => true | _ => false end
      | KeyError _ =>
          match c with CLookupError | CKeyError => true | _ => false end
      | TypeError _ =>
          match c with CTypeError => true | _ => false end
      | AttributeError _ =>
          match c with CAttributeError => true | _ => false end
      | ConnectionError _ | HTTPError _ =>
          match c with COSError | CRequestException => true | _ => false end
      | RequestsJSONDecodeError _ =>
          match c with
          | COSError | CRequestException | CValueError | CJSONDecodeError => true
          | _ => false
          end
      | GetPackageInfoError _ _ =>
          match c with
          | CPackackeException | CGetPackageInfoError => true
          | _ => false
          end
      end
  end.

(** ** The error monad *)

Inductive result (A : Type) : Type :=
| Ok (a : A)
| Raise (e : exn).
Arguments Ok {A} a.
Arguments Raise {A} e.

Definition bind {A B : Type} (m : result A) (k : A -> result B) : result B :=
  match m with
  | Ok a => k a
  | Raise e => Raise e
  end.

Notation "x <- m ;; k" := (bind m (fun x => k))
  (at level 61, m at next level, right associativity).

(** [try: m  except c: h]. *)
Definition try_except {A : Type} (m : result A) (c : exn_class)
    (h : exn -> result A) : result A :=
  match m with
  | Ok a => Ok a
  | Raise e => if isinstance e c then h e else Raise e
  end.

Definition raised {A : Type} (m : result A) : bool :=
  match m with Ok _ => false | Raise _ => true end.

(** ** Operations of Python's data model used by the program *)

(** [sub in s] for two strings. *)
Fixpoint str_contains (sub s : string) : bool :=
  String.prefix sub s ||
  match s with
  | EmptyString => false
  | String _ s' => str_contains sub s'
  end.

(** [for x in v]: the items the loop visits. *)
Definition py_iter (v : pyval) : result (list pyval) :=
  match v with
  | PyList xs => Ok xs
  | PyDict items => Ok (map (fun kv => PyStr (fst kv)) items)
  | PyStr s => Ok (map (fun c => PyStr (String c EmptyString)) (list_ascii_of_string s))
  | _ => Raise (TypeError "object is not iterable")
  end.

(** [v[key]] with a string key. *)
Definition py_getitem (v : pyval) (key : string) : result pyval :=
  match v with
  | PyDict items =>
      match dict_get key items with
      | Some x => Ok x
      | None => Raise (KeyError key)
      end
  | PyList _ => Raise (TypeError "list indices must be integers or slices, not str")
  | PyStr _ => Raise (TypeError "string indices must be integers")
  | _ => Raise (TypeError "object is not subscriptable")
  end.

(** [key in v] with a string key. *)
Definition py_contains (key : string) (v : pyval) : result bool :=
  match v with
  | PyDict items =>
      Ok (match dict_get key items with Some _ => true | None => false end)
  | PyList xs => Ok (existsb (fun x => py_eq x (PyStr key)) xs)
  | PyStr s => Ok (str_contains key s)
  | _ => Raise (TypeError "argument is not iterable")
  end.

(** ** The world outside the repository *)

Inductive stream : Type := Stdout | Stderr.

Definition stream_eqb (a b : stream) : bool :=
  match a, b with
  | Stdout, Stdout | Stderr, Stderr => true
  | _, _ => false
  end.

(** A child process that terminates: the characters it writes, in the
    order it writes them and each on its stream (as text, after decoding
    and newline translation), and its exit status. *)
Record process : Type := {
  output : list (stream * ascii);
  returncode : Z
}.

(** What [requests.get] hands back: the status and what [.json()] does. *)
Record response : Type := {
  status_code : Z;
  json : result pyval
}.

Record Env : Type := {
  (** [platform.system()] *)
  platform_system : string;
  (** [os.path.join(a, *p)] *)
  os_path_join : string -> list string -> string;
  (** [os.path.isfile] *)
  os_path_isfile : string -> bool;
  (** [str.lower] *)
  str_lower : string -> string;
  (** [json.loads] on a string: the value or the exception *)
  json_loads : string -> result pyval;
  (** starting a child with this argv: an [OSError] or the child *)
  popen : list string -> result process;
  (** [requests.get(url)]: a [RequestException] or the response *)
  requests_get : string -> result response
}.

(** The text a child wrote on one stream. *)
Definition stream_text (s : stream) (p : process) : string :=
  string_of_list_ascii
    (map snd (filter (fun e => stream_eqb (fst e) s) (output p))).

(** [subprocess.check_call(cmd)]. *)
Definition check_call (env : Env) (cmd : list string) : result Z :=
  p <- popen env cmd ;;
  if Z.eqb (returncode p) 0 then Ok 0
  else Raise (CalledProcessError (returncode p) cmd).

(** [subprocess.check_output(cmd, universal_newlines=True)]. *)
Definition check_output (env : Env) (cmd : list string) : result string :=
  p <- popen env cmd ;;
  if Z.eqb (returncode p) 0 then Ok (stream_text Stdout p)
  else Raise (CalledProcessError (returncode p) cmd).

(** [response.raise_for_status()]. *)
Definition raise_for_status (r : response) : result unit :=
  if (400 <=? status_code r) && (status_code r <? 600)
  then Raise (HTTPError (status_code r))
  else Ok tt.

(** [str.lower] applied to a value that may not be a string. *)
Definition py_lower (env : Env) (v : pyval) : result pyval :=
  match v with
  | PyStr s => Ok (PyStr (str_lower env s))
  | _ => Raise (AttributeError "object has no attribute 'lower'")
  end.

(** ** envmanager/_pypi.py *)

Definition get_package_info (env : Env) (package_name : string) : result pyval :=
  let url := "https://pypi.org/pypi/" ++ package_name ++ "/json" in
  try_except
    (response <- requests_get env url ;;
     _ <- raise_for_status response ;;
     json response)
    CRequestException
    (fun exc =>
       Raise (GetPackageInfoError
                ("Failed to fetch package data for " ++ package_name ++ ".")
                (Some exc))).

(** ** envmanager/__init__.py: class EnvManager *)

Module EnvManager.

(** The attributes [__init__] sets on the object. *)
Record t : Type := {
  env_path : string;
  python_exe : string
}.

(** The double quote character of the f-strings of [install_package]. *)
Definition dquote : string := String "034"%char EmptyString.

(** The interpreter path the host's convention gives for an
    environment root. *)
Definition python_exe_path (env : Env) (env_path : string) : string :=
  if String.eqb (platform_system env) "Windows"
  then os_path_join env env_path ["Scripts"; "python.exe"]
  else os_path_join env env_path ["bin"; "python"].

Definition get_python_executable (env : Env) (env_path : string) : result string :=
  let python_exe := python_exe_path env env_path in
  if negb (os_path_isfile env python_exe)
  then Raise (FileNotFoundError
                ("Python executable not found in virtual environment at "
                   ++ env_path))
  else Ok python_exe.

(** [EnvManager(env_path)]. *)
Definition init (env : Env) (env_path : string) : result t :=
  python_exe <- get_python_executable env env_path ;;
  Ok {| env_path := env_path; python_exe := python_exe |}.

(** [l[-1] = x] on a list that is not empty. *)
Fixpoint set_last (l : list string) (x : string) : list string :=
  match l with
  | [] => []
  | [_] => [x]
  | y :: l' => y :: set_last l' x
  end.

(** [version[0] in ("<", ">", "=")] for a non-empty string. *)
Definition starts_with_specifier (version : string) : bool :=
  match version with
  | EmptyString => false
  | String c _ =>
      Ascii.eqb c "<"%char || Ascii.eqb c ">"%char || Ascii.eqb c "="%char
  end.

(** The command [install_package] hands to [subprocess.check_call];
    [version] is [None] or a string. *)
Definition install_cmd (self : t) (package_name : string)
    (version : option string) (upgrade : bool) : list string :=
  let install_cmd := [python_exe self; "-m"; "pip"; "install"; package_name] in
  let install_cmd :=
    match version with
    | Some version =>
        if negb (String.eqb version EmptyString) then
          if starts_with_specifier version
          then set_last install_cmd (dquote ++ package_name ++ version ++ dquote)
          else set_last install_cmd
                 (dquote ++ package_name ++ "==" ++ version ++ dquote)
        else install_cmd
    | None => install_cmd
    end in
  if upgrade then install_cmd ++ ["--upgrade"] else install_cmd.

Definition install_package (env : Env) (self : t) (package_name : string)
    (version : option string) (upgrade : bool) : result bool :=
  try_except
    (_ <- check_call env (install_cmd self package_name version upgrade) ;;
     Ok true)
    CCalledProcessError
    (fun _ => Ok false).

Definition list_cmd (self : t) : list string :=
  [python_exe self; "-m"; "pip"; "list"; "--format=json"].

Definition all_packages (env : Env) (self : t) : result pyval :=
  result <- try_except
              (check_output env (list_cmd self))
              CCalledProcessError
              (fun exc => Raise (ValueError "Failed to list packages." (Some exc))) ;;
  try_except
    (json_loads env result)
    CJSONDecodeError
    (fun exc => Raise (ValueError "Failed to parse pip output." (Some exc))).

(** The loop of [get_local_package] over the listed entries. *)
Fixpoint get_local_package_loop (env : Env) (package_name : string) (pkgs : list pyval)
    : result pyval :=
  match pkgs with
  | [] => Ok PyNone
  | pkg :: rest =>
      name <- py_getitem pkg "name" ;;
      lowered <- py_lower env name ;;
      if py_eq lowered (PyStr (str_lower env package_name))
      then Ok pkg
      else get_local_package_loop env package_name rest
  end.

Definition get_local_package (env : Env) (self : t) (package_name : string)
    : result pyval :=
  packages <- all_packages env self ;;
  pkgs <- py_iter packages ;;
  get_local_package_loop env package_name pkgs.

Definition get_package_version (env : Env) (self : t) (package_name : string)
    : result pyval :=
  listentry <- get_local_package env self package_name ;;
  if py_truthy listentry then py_getitem listentry "version"
  else Ok PyNone.

Definition get_remote_package (env : Env) (package_name : string) : result pyval :=
  try_except
    (get_package_info env package_name)
    CGetPackageInfoError
    (fun _ => Ok PyNone).

Definition package_is_installed (env : Env) (self : t) (package_name : string)
    : result bool :=
  version <- get_package_version env self package_name ;;
  Ok (negb (is_None version)).

Definition invalid_package_data : exn := ValueError "Invalid package data." None.

(** The tuple returned: update available, latest version, installed
    version. *)
Definition package_update_available (env : Env) (self : t) (package_name : string)
    : result (bool * pyval * pyval) :=
  local_version <- get_package_version env self package_name ;;
  if is_None local_version then Ok (false, PyNone, PyNone) else
  remote_data <- get_remote_package env package_name ;;
  if is_None remote_data then Ok (false, PyNone, local_version) else
  has_info <- py_contains "info" remote_data ;;
  if negb has_info then Raise invalid_package_data else
  info <- py_getitem remote_data "info" ;;
  has_version <- py_contains "version" info ;;
  if negb has_version then Raise invalid_package_data else
  info <- py_getitem remote_data "info" ;;
  latest_version <- py_getitem info "version" ;;
  if is_None latest_version then Raise invalid_package_data else
  Ok (py_ne latest_version local_version, latest_version, local_version).

End EnvManager.

(** ** venvmngr/utils.py: run_subprocess_with_streams *)

(** The function starts a child with two pipes, starts one thread per
    pipe that reads it line by line and hands each line to a callback,
    joins both threads, waits for the child and looks at its exit status.
    Four actors take steps in any order: the child, the two reader
    threads and the calling thread.  A pipe holds at most [cap]
    characters; a write to a full pipe and a read from an empty pipe
    whose write end is open block, which is a step that is not enabled.
    The write ends close when the child exits. *)
Module ProcessRunner.

Local Open Scope nat_scope.

Definition newline : ascii := "010"%char.

Inductive thread_status : Type := NotStarted | Running | Finished.

(** A reader thread: where it is, and the characters of the line
    [readline] is assembling. *)
Record reader : Type := {
  status : thread_status;
  partial : list ascii
}.

(** The statement the calling thread is at. *)
Inductive main_pc : Type :=
| StartStdout   (* stdout_thread.start() *)
| StartStderr   (* stderr_thread.start() *)
| JoinStdout    (* stdout_thread.join() *)
| JoinStderr    (* stderr_thread.join() *)
| Wait          (* process.wait() *)
| Returned.     (* past process.wait(): the return code is checked *)

Record state : Type := {
  todo : list (stream * ascii);     (* what the child has still to write *)
  exited : bool;                    (* the child has exited *)
  pipe_out : list ascii;            (* characters in the stdout pipe *)
  pipe_err : list ascii;            (* characters in the stderr pipe *)
  rd_out : reader;                  (* stdout_thread *)
  rd_err : reader;                  (* stderr_thread *)
  calls : list (stream * string);   (* callback calls made so far, in order *)
  main : main_pc
}.

Inductive actor : Type := Child | Reader (s : stream) | Main.

Definition pipe_of (x : stream) (st : state) : list ascii :=
  match x with Stdout => pipe_out st | Stderr => pipe_err st end.

Definition reader_of (x : stream) (st : state) : reader :=
  match x with Stdout => rd_out st | Stderr => rd_err st end.

Definition set_pipe (x : stream) (q : list ascii) (st : state) : state :=
  match x with
  | Stdout =>
      {| todo := todo st; exited := exited st; pipe_out := q;
         pipe_err := pipe_err st; rd_out := rd_out st; rd_err := rd_err st;
         calls := calls st; main := main st |}
  | Stderr =>
      {| todo := todo st; exited := exited st; pipe_out := pipe_out st;
         pipe_err := q; rd_out := rd_out st; rd_err := rd_err st;
         calls := calls st; main := main st |}
  end.

Definition set_reader (x : stream) (r : reader) (st : state) : state :=
  match x with
  | Stdout =>
      {| todo := todo st; exited := exited st; pipe_out := pipe_out st;
         pipe_err := pipe_err st; rd_out := r; rd_err := rd_err st;
         calls := calls st; main := main st |}
  | Stderr =>
      {| todo := todo st; exited := exited st; pipe_out := pipe_out st;
         pipe_err := pipe_err st; rd_out := rd_out st; rd_err := r;
         calls := calls st; main := main st |}
  end.

Definition set_todo (t : list (stream * ascii)) (st : state) : state :=
  {| todo := t; exited := exited st; pipe_out := pipe_out st;
     pipe_err := pipe_err st; rd_out := rd_out st; rd_err := rd_err st;
     calls := calls st; main := main st |}.

Definition set_exited (st : state) : state :=
  {| todo := todo st; exited := true; pipe_out := pipe_out st;
     pipe_err := pipe_err st; rd_out := rd_out st; rd_err := rd_err st;
     calls := calls st; main := main st |}.

Definition set_main (pc : main_pc) (st : state) : state :=
  {| todo := todo st; exited := exited st; pipe_out := pipe_out st;
     pipe_err := pipe_err st; rd_out := rd_out st; rd_err := rd_err st;
     calls := calls st; main := pc |}.

Definition add_call (x : stream) (line : string) (st : state) : state :=
  {| todo := todo st; exited := exited st; pipe_out := pipe_out st;
     pipe_err := pipe_err st; rd_out := rd_out st; rd_err := rd_err st;
     calls := calls st ++ [(x, line)]; main := main st |}.

Section Run.

(** Capacity of a pipe, in characters. *)
Variable cap : nat.

(** [stdout_callback] and [stderr_callback]: given, or [None]. *)
Variable has_callback : stream -> bool.

(** [if callback: callback(line)]. *)
Definition deliver (x : stream) (line : list ascii) (st : state) : state :=
  if has_callback x then add_call x (string_of_list_ascii line) st else st.

(** The child writes its next character, or exits when it has none left. *)
Definition child_step (st : state) : option state :=
  if exited st then None
  else
    match todo st with
    | [] => Some (set_exited st)
    | (x, c) :: rest =>
        if List.length (pipe_of x st) <? cap
        then Some (set_pipe x (pipe_of x st ++ [c]) (set_todo rest st))
        else None
    end.

(** [read_stream(stream, callback)]: [readline] takes one character
    from the pipe; a newline completes the line, which goes to the
    callback; at end of file an unterminated last line goes to the
    callback, and then [readline] returns the empty string, the loop
    ends, the stream is closed and the thread finishes. *)
Definition reader_step (x : stream) (st : state) : option state :=
  let r := reader_of x st in
  match status r with
  | Running =>
      match pipe_of x st with
      | c :: rest =>
          let st := set_pipe x rest st in
          if Ascii.eqb c newline
          then Some (deliver x (partial r ++ [c])
                       (set_reader x {| status := Running; partial := [] |} st))
          else Some (set_reader x
                       {| status := Running; partial := partial r ++ [c] |} st)
      | [] =>
          if exited st then
            match partial r with
            | [] => Some (set_reader x {| status := Finished; partial := [] |} st)
            | line =>
                Some (deliver x line
                        (set_reader x {| status := Running; partial := [] |} st))
            end
          else None
      end
  | _ => None
  end.

Definition is_finished (r : reader) : bool :=
  match status r with Finished => true | _ => false end.

(** The statements of the calling thread after [Popen]. *)
Definition main_step (st : state) : option state :=
  match main st with
  | StartStdout =>
      Some (set_main StartStderr
              (set_reader Stdout {| status := Running; partial := [] |} st))
  | StartStderr =>
      Some (set_main JoinStdout
              (set_reader Stderr {| status := Running; partial := [] |} st))
  | JoinStdout =>
      if is_finished (rd_out st) then Some (set_main JoinStderr st) else None
  | JoinStderr =>
      if is_finished (rd_err st) then Some (set_main Wait st) else None
  | Wait => if exited st then Some (set_main Returned st) else None
  | Returned => None
  end.

Definition step_of (a : actor) (st : state) : option state :=
  match a with
  | Child => child_step st
  | Reader x => reader_step x st
  | Main => main_step st
  end.

(** An interleaving is the list of the actors that move, in order; it
    is an execution when each of them can move at its turn. *)
Fixpoint exec (sched : list actor) (st : state) : option state :=
  match sched with
  | [] => Some st
  | a :: rest =>
      match step_of a st with
      | Some st' => exec rest st'
      | None => None
      end
  end.

(** The state right after [Popen]. *)
Definition initial (p : process) : state :=
  {| todo := output p; exited := false; pipe_out := []; pipe_err := [];
     rd_out := {| status := NotStarted; partial := [] |};
     rd_err := {| status := NotStarted; partial := [] |};
     calls := []; main := StartStdout |}.

Definition returned (st : state) : bool :=
  match main st with Returned => true | _ => false end.

(** One schedule among all: at each point the first actor that can
    move, the calling thread first. *)
Definition first_enabled (st : state) : option actor :=
  find (fun a => match step_of a st with Some _ => true | None => false end)
    [Main; Reader Stdout; Reader Stderr; Child].

Fixpoint first_schedule (fuel : nat) (st : state) : list actor :=
  match fuel with
  | 0 => []
  | S fuel' =>
      if returned st then []
      else
        match first_enabled st with
        | Some a =>
            match step_of a st with
            | Some st' => a :: first_schedule fuel' st'
            | None => []
            end
        | None => []
        end
  end.

(** A bound on the number of steps left: every step lowers it. *)
Definition status_rank (r : reader) : nat :=
  match status r with NotStarted => 2 | Running => 1 | Finished => 0 end.

Definition partial_rank (r : reader) : nat :=
  match partial r with [] => 0 | _ => 1 end.

Definition main_rank (pc : main_pc) : nat :=
  match pc with
  | StartStdout => 7 | StartStderr => 5 | JoinStdout => 3
  | JoinStderr => 2 | Wait => 1 | Returned => 0
  end.

Definition measure (st : state) : nat :=
  3 * List.length (todo st) + (if exited st then 0 else 1)
  + 2 * (List.length (pipe_out st) + List.length (pipe_err st))
  + partial_rank (rd_out st) + partial_rank (rd_err st)
  + status_rank (rd_out st) + status_rank (rd_err st)
  + main_rank (main st).

End Run.

(** [' '.join(args)]. *)
Definition join_args (args : list string) : string := String.concat " " args.

(** What the function does once the child has been waited for: it
    raises on a non-zero return code and otherwise falls off its end,
    which returns [None]. *)
Definition check_returncode (args : list string) (p : process) : result pyval :=
  if negb (Z.eqb (returncode p) 0)
  then Raise (ValueError ("Failed to call " ++ join_args args)
                (Some (CalledProcessError (returncode p) args)))
  else Ok PyNone.

(** The lines [readline] cuts a text into, each with its newline, the
    last one possibly without; [acc] is the line begun. *)
Fixpoint lines_from (acc chars : list ascii) : list (list ascii) :=
  match chars with
  | [] => match acc with [] => [] | _ => [acc] end
  | c :: rest =>
      if Ascii.eqb c newline then (acc ++ [c])%list :: lines_from [] rest
      else lines_from (acc ++ [c]) rest
  end.

Definition chars_of (x : stream) (l : list (stream * ascii)) : list ascii :=
  map snd (filter (fun e => stream_eqb (fst e) x) l).

(** The lines a child emits on a stream. *)
Definition emitted_lines (x : stream) (p : process) : list string :=
  map string_of_list_ascii (lines_from [] (chars_of x (output p))).

(** The lines a callback was called with, in order. *)
Definition lines_to (x : stream) (cs : list (stream * string)) : list string :=
  map snd (filter (fun e => stream_eqb (fst e) x) cs).

(** What holds of every state an execution reaches. *)
Record Inv (st : state) : Prop := {
  (* the child exits when it has written everything *)
  inv_exited : exited st = true -> todo st = [];
  (* a reader finishes at end of file, with nothing left to deliver *)
  inv_finished : forall x,
    status (reader_of x st) = Finished ->
    exited st = true /\ pipe_of x st = [] /\ partial (reader_of x st) = [];
  (* a thread that was not started has read nothing *)
  inv_not_started : forall x,
    status (reader_of x st) = NotStarted -> partial (reader_of x st) = [];
  (* where the calling thread is, and the threads it has started or joined *)
  inv_main :
    match main st with
    | StartStdout =>
        status (rd_out st) = NotStarted /\ status (rd_err st) = NotStarted
    | StartStderr =>
        status (rd_out st) <> NotStarted /\ status (rd_err st) = NotStarted
    | JoinStdout =>
        status (rd_out st) <> NotStarted /\ status (rd_err st) <> NotStarted
    | JoinStderr =>
        status (rd_out st) = Finished /\ status (rd_err st) <> NotStarted
    | Wait =>
        status (rd_out st) = Finished /\ status (rd_err st) = Finished
    | Returned =>
        status (rd_out st) = Finished /\ status (rd_err st) = Finished
        /\ exited st = true
    end
}.

(** The lines of a stream that are still to come: in the reader, in the
    pipe, or not yet written. *)
Definition pending_lines (x : stream) (st : state) : list string :=
  map string_of_list_ascii
    (lines_from (partial (reader_of x st))
       (pipe_of x st ++ chars_of x (todo st))).

(** The call under an interleaving: what it returns or raises, and the
    callback calls made by then.  [None] when the interleaving is not
    an execution that reaches the end of the function. *)
Definition run_subprocess_with_streams (cap : nat) (env : Env)
    (args : list string) (has_callback : stream -> bool) (sched : list actor)
    : option (result pyval * list (stream * string)) :=
  match popen env args with
  | Raise e => Some (Raise e, [])
  | Ok p =>
      match exec cap has_callback sched (initial p) with
      | Some st =>
          if returned st then Some (check_returncode args p, calls st)
          else None
      | None => None
      end
  end.

End ProcessRunner.


(** ** Concrete hosts, used to run the definitions *)

Module Examples.

(** [posixpath.join]. *)
Fixpoint posix_join (path : string) (parts : list string) : string :=
  match parts with
  | [] => path
  | b :: rest =>
      if String.prefix "/" b then posix_join b rest
      else if String.eqb path EmptyString
              || String.eqb (String.substring (String.length path - 1) 1 path) "/"
      then posix_join (path ++ b) rest
      else posix_join (path ++ "/" ++ b) rest
  end.

(** [str.lower] on ASCII text. *)
Definition ascii_lower_char (c : ascii) : ascii :=
  let n := nat_of_ascii c in
  if (65 <=? n)%nat && (n <=? 90)%nat then ascii_of_nat (n + 32) else c.

Fixpoint ascii_lower (s : string) : string :=
  match s with
  | EmptyString => EmptyString
  | String c s' => String (ascii_lower_char c) (ascii_lower s')
  end.

Definition quoted (s : string) : string :=
  EnvManager.dquote ++ s ++ EnvManager.dquote.

(** What [pip list --format=json] prints in an environment that holds
    one package, and the value [json.loads] makes of it. *)
Definition listing_text : string :=
  "[{" ++ quoted "name" ++ ": " ++ quoted "Requests" ++ ", "
       ++ quoted "version" ++ ": " ++ quoted "2.31.0" ++ "}]".

Definition listing : pyval :=
  PyList [PyDict [("name", PyStr "Requests"); ("version", PyStr "2.31.0")]].

Definition sample_json_loads (s : string) : result pyval :=
  if String.eqb s listing_text then Ok listing
  else Raise (JSONDecodeError "Expecting value: line 1 column 1 (char 0)").

(** A child that prints [text] on its standard output and exits with
    [code]. *)
Definition printing (text : string) (code : Z) : process :=
  {| output := map (fun c => (Stdout, c)) (list_ascii_of_string text);
     returncode := code |}.

(** A POSIX host with one environment, at [/venv]: [pip] behaves as
    [pip] says and the index answers [index]. *)
Definition host (pip : process) (index : result response) : Env :=
  {| platform_system := "Linux";
     os_path_join := posix_join;
     os_path_isfile := fun p => String.eqb p "/venv/bin/python";
     str_lower := ascii_lower;
     json_loads := sample_json_loads;
     popen := fun _ => Ok pip;
     requests_get := fun _ => index |}.

Definition venv : EnvManager.t :=
  {| EnvManager.env_path := "/venv"; EnvManager.python_exe := "/venv/bin/python" |}.

(** The index knows release 2.32.3. *)
Definition index_ok : result response :=
  Ok {| status_code := 200;
        json := Ok (PyDict [("info", PyDict [("name", PyStr "requests");
                                             ("version", PyStr "2.32.3")])]) |}.

(** The index is older than what is installed. *)
Definition index_behind : result response :=
  Ok {| status_code := 200;
        json := Ok (PyDict [("info", PyDict [("name", PyStr "requests");
                                             ("version", PyStr "2.0.0")])]) |}.




(** A child that writes on both streams and fails. *)
Definition failing_child : process :=
  {| output := [(Stdout, "a"%char); (Stderr, "E"%char); (Stdout, ProcessRunner.newline);
                (Stderr, ProcessRunner.newline); (Stdout, "b"%char)];
     returncode := 2 |}.

End Examples.

(** ** envmanager/__init__.py: creating environments *)

Module EnvFactory.

(** What the two functions need beyond [Env]: [os.path.isdir] on the
    host as it is, and what [venv.EnvBuilder(with_pip=True).create(path)]
    does to it: it raises, or it leaves the host in a new state. *)
Record Builder : Type := {
  os_path_isdir : string -> bool;
  builder_create : string -> result Env
}.

(** The lines printed, and the outcome: an exception, or the manager
    together with the host it was built in. *)
Definition create_virtual_env (b : Builder) (env_path : string)
    : list string * result (Env * EnvManager.t) :=
  let creating := "Creating virtual environment at " ++ env_path ++ "..." in
  match builder_create b env_path with
  | Raise e => ([creating], Raise e)
  | Ok env' =>
      ([creating; "Virtual environment created."],
       self <- EnvManager.init env' env_path ;; Ok (env', self))
  end.

Definition get_or_create_virtual_env (env : Env) (b : Builder)
    (env_path : string) : list string * result (Env * EnvManager.t) :=
  if negb (os_path_isdir b env_path) then create_virtual_env b env_path
  else
    ([],
     try_except
       (self <- EnvManager.init env env_path ;; Ok (env, self))
       CFileNotFoundError
       (fun _ =>
          Raise (ValueError
                   ("Directory " ++ env_path
                      ++ " does not contain a valid virtual environment.")
                   None))).

End EnvFactory.

(** ** venvmngr/utils.py: locate_system_pythons *)

Module SystemPythons.

Section Locate.

(** [packaging.version.Version] objects. *)
Variable V : Type.

(** The library functions of the loop: [os.name], [str.strip],
    [str.splitlines], [str.split] without arguments, the constructor
    [Version] ([None] when it raises [InvalidVersion]) and the truth
    value of a [Version] object. *)
Record TextLib : Type := {
  os_name : string;
  str_strip : string -> string;
  str_splitlines : string -> list string;
  str_split : string -> list string;
  Version : string -> option V;
  version_truthy : V -> bool
}.

(** [subprocess.run(args, capture_output=True, text=True)], with or
    without [check=True]. *)
Definition subprocess_run (env : Env) (check : bool) (args : list string)
    : result process :=
  p <- popen env args ;;
  if check && negb (Z.eqb (returncode p) 0)
  then Raise (CalledProcessError (returncode p) args)
  else Ok p.

(** The body of the inner [try]: the version a candidate reports, or
    [None] when any statement of the body raises, which the handler
    answers with [continue]. *)
Definition probe (env : Env) (lib : TextLib) (line : string) : option V :=
  match subprocess_run env true [line; "--version"] with
  | Raise _ => None
  | Ok versionresult =>
      match rev (str_split lib (stream_text Stdout versionresult)) with
      | [] => None                       (* [][-1]: IndexError *)
      | token :: _ => Version lib token
      end
  end.

(** The [for] loop, [pyths] being the list built so far. *)
Fixpoint scan (env : Env) (lib : TextLib) (lines : list string)
    (pyths : list (string * V)) : list (string * V) :=
  match lines with
  | [] => pyths
  | line :: rest =>
      match probe env lib line with
      | None => scan env lib rest pyths
      | Some vers_string =>
          if negb (version_truthy lib vers_string) then scan env lib rest pyths
          else scan env lib rest (pyths ++ [(line, vers_string)])
      end
  end.

Definition locate_command (lib : TextLib) : string :=
  if String.eqb (os_name lib) "nt" then "where" else "which".

(** Each record of the result is its [executable] and its [version]. *)
Definition locate_system_pythons (env : Env) (lib : TextLib)
    : result (list (string * V)) :=
  try_except
    (result <- subprocess_run env false [locate_command lib; "python"] ;;
     Ok (scan env lib
           (str_splitlines lib (str_strip lib (stream_text Stdout result)))
           []))
    CException
    (fun exc => Raise (ValueError "Failed to locate system Python." (Some exc))).


End Locate.

End SystemPythons.

(** ** What a listing entry is to [get_local_package] *)

(** A dict whose [name] is a string. *)
Definition entry_named (pkg : pyval) : bool :=
  match pkg with
  | PyDict items =>
      match dict_get "name" items with
      | Some (PyStr _) => true
      | _ => false
      end
  | _ => false
  end.

(** A value that is [None], a number or a boolean. *)
Definition not_a_container (v : pyval) : bool :=
  match v with
  | PyNone | PyBool _ | PyInt _ => true
  | _ => false
  end.

(** A dict whose [name], lowered, is the lowered [package_name]. *)
Definition entry_matches (env : Env) (package_name : string) (pkg : pyval) : bool :=
  match pkg with
  | PyDict items =>
      match dict_get "name" items with
      | Some (PyStr nm) =>
          String.eqb (str_lower env nm) (str_lower env package_name)
      | _ => false
      end
  | _ => false
  end.

(** ** More concrete hosts *)

Module MoreExamples.

(** The host of [Examples.host] with a [json.loads] that answers
    [listing] whatever [pip] prints. *)
Definition listing_host (listing : pyval) (index : result response) : Env :=
  {| platform_system := "Linux";
     os_path_join := Examples.posix_join;
     os_path_isfile := fun p => String.eqb p "/venv/bin/python";
     str_lower := Examples.ascii_lower;
     json_loads := fun _ => Ok listing;
     popen := fun _ => Ok (Examples.printing "[]" 0);
     requests_get := fun _ => index |}.

(** Two packages, then an entry that has no name. *)
Definition listing_nameless : pyval :=
  PyList [PyDict [("name", PyStr "pip"); ("version", PyStr "24.0")];
          PyDict [("name", PyStr "Requests"); ("version", PyStr "2.31.0")];
          PyDict [("version", PyStr "1.0")]].

(** A package without a version and one whose version is null. *)
Definition listing_versions : pyval :=
  PyList [PyDict [("name", PyStr "editable")];
          PyDict [("name", PyStr "ghost"); ("version", PyNone)];
          PyDict [("name", PyStr "Requests"); ("version", PyStr "2.31.0")]].

(** An index whose body is the JSON [null], one whose version is
    null, one whose [info] is null, and one whose body is not JSON,
    with a [requests] that raises the plain [json.JSONDecodeError]. *)
Definition index_null : result response :=
  Ok {| status_code := 200; json := Ok PyNone |}.

Definition index_null_version : result response :=
  Ok {| status_code := 200;
        json := Ok (PyDict [("info", PyDict [("version", PyNone)])]) |}.

Definition index_null_info : result response :=
  Ok {| status_code := 200; json := Ok (PyDict [("info", PyNone)]) |}.

Definition index_plain_json_error : result response :=
  Ok {| status_code := 200; json := Raise (JSONDecodeError "Expecting value") |}.

(** The state of a run of [Examples.failing_child] with a callback for
    the standard output only, after both streams were read once. *)
Definition midway : ProcessRunner.state :=
  Eval vm_compute in
    match ProcessRunner.exec 2
            (fun x => match x with Stdout => true | Stderr => false end)
            [ProcessRunner.Main; ProcessRunner.Main; ProcessRunner.Child;
             ProcessRunner.Reader Stdout; ProcessRunner.Child;
             ProcessRunner.Reader Stderr; ProcessRunner.Child;
             ProcessRunner.Reader Stdout; ProcessRunner.Child;
             ProcessRunner.Reader Stderr]
            (ProcessRunner.initial Examples.failing_child) with
    | Some st => st
    | None => ProcessRunner.initial Examples.failing_child
    end.


(** A host where the files for which [isfile] holds exist. *)
Definition host_with (isfile : string -> bool) : Env :=
  {| platform_system := "Linux";
     os_path_join := Examples.posix_join;
     os_path_isfile := isfile;
     str_lower := Examples.ascii_lower;
     json_loads := Examples.sample_json_loads;
     popen := fun _ => Ok (Examples.printing Examples.listing_text 0);
     requests_get := fun _ => Examples.index_ok |}.

(** A host with the directories [/venv], which is an environment, and
    [/data], which is not; a builder that works, and one that leaves
    no interpreter behind. *)
Definition old_host : Env := host_with (fun f => String.eqb f "/venv/bin/python").

Definition sample_builder : EnvFactory.Builder :=
  {| EnvFactory.os_path_isdir :=
       fun p => String.eqb p "/venv" || String.eqb p "/data";
     EnvFactory.builder_create :=
       fun p => Ok (host_with (fun f => String.eqb f "/venv/bin/python"
                                        || String.eqb f (p ++ "/bin/python"))) |}.

(** The host [sample_builder] leaves after creating [/new]. *)
Definition new_host : Env :=
  host_with (fun f => String.eqb f "/venv/bin/python"
                      || String.eqb f ("/new" ++ "/bin/python")).

Definition broken_builder : EnvFactory.Builder :=
  {| EnvFactory.os_path_isdir := fun p => String.eqb p "/venv";
     EnvFactory.builder_create := fun _ => Ok old_host |}.








End MoreExamples.

(** * Properties *)

Import Examples.

(** ** Facts about the environment manager *)
Module EnvManagerFacts.
Import EnvManager.

Lemma py_eq_str a b : py_eq (PyStr a) (PyStr b) = true <-> a = b.
Proof. simpl. apply String.eqb_eq. Qed.

Lemma py_ne_str a b : py_ne (PyStr a) (PyStr b) = true <-> a <> b.
Proof.
  unfold py_ne. simpl. rewrite negb_true_iff. apply String.eqb_neq.
Qed.

(** What [get_package_info] does with each answer of the index. *)
Lemma get_package_info_cases env name :
  get_package_info env name =
  match requests_get env ("https://pypi.org/pypi/" ++ name ++ "/json") with
  | Raise e =>
      if isinstance e CRequestException
      then Raise (GetPackageInfoError
                    ("Failed to fetch package data for " ++ name ++ ".") (Some e))
      else Raise e
  | Ok r =>
      if (400 <=? status_code r) && (status_code r <? 600)
      then Raise (GetPackageInfoError
                    ("Failed to fetch package data for " ++ name ++ ".")
                    (Some (HTTPError (status_code r))))
      else
        match json r with
        | Ok v => Ok v
        | Raise e =>
            if isinstance e CRequestException
            then Raise (GetPackageInfoError
                          ("Failed to fetch package data for " ++ name ++ ".")
                          (Some e))
            else Raise e
        end
  end.
Proof.
  unfold get_package_info, try_except, raise_for_status.
  destruct (requests_get env _) as [r|e]; simpl; [|reflexivity].
  destruct ((400 <=? status_code r) && (status_code r <? 600)); simpl; [reflexivity|].
  destruct (json r); reflexivity.
Qed.

(** The three causes of a failed lookup: no connection, a 4xx or 5xx
    status, a body that is not JSON. *)
Lemma get_package_info_fails env name :
  let url := "https://pypi.org/pypi/" ++ name ++ "/json" in
  (exists e, requests_get env url = Raise e
             /\ isinstance e CRequestException = true)
  \/ (exists r, requests_get env url = Ok r
                /\ ((400 <= status_code r < 600)
                    \/ exists e, json r = Raise e
                                 /\ isinstance e CRequestException = true)) ->
  exists e, get_package_info env name = Raise e
            /\ isinstance e CGetPackageInfoError = true.
Proof.
  intros url H. rewrite get_package_info_cases. fold url.
  destruct H as [(e & -> & He) | (r & -> & H)].
  - rewrite He. eexists. split; reflexivity.
  - destruct ((400 <=? status_code r) && (status_code r <? 600)) eqn:Es.
    + eexists. split; reflexivity.
    + destruct H as [H | (e & -> & He)].
      * exfalso. apply andb_false_iff in Es.
        destruct Es as [Es | Es]; [apply Z.leb_gt in Es | apply Z.ltb_ge in Es]; lia.
      * rewrite He. eexists. split; reflexivity.
Qed.


Lemma get_remote_package_ok env name v :
  get_package_info env name = Ok v -> get_remote_package env name = Ok v.
Proof.
  intros H. unfold get_remote_package, try_except. rewrite H. reflexivity.
Qed.

(** The package argument of the command, with a version given. *)
Lemma install_cmd_with_version self name version upgrade :
  version <> EmptyString ->
  install_cmd self name (Some version) upgrade =
  List.app
    [python_exe self; "-m"; "pip"; "install";
     dquote ++ name ++ (if starts_with_specifier version then version
                        else "==" ++ version) ++ dquote]
    (if upgrade then ["--upgrade"] else []).
Proof.
  intros Hv. unfold install_cmd.
  apply String.eqb_neq in Hv. rewrite Hv. simpl.
  destruct (starts_with_specifier version), upgrade; reflexivity.
Qed.

End EnvManagerFacts.

Import EnvManager.

(** C8.  For every environment root, [get_python_executable] looks at
    [<root>/Scripts/python.exe] on a Windows host and at
    [<root>/bin/python] on any other host, returns that path when it is
    a regular file, and raises [FileNotFoundError] exactly when it is
    not; constructing an [EnvManager] succeeds and fails under the same
    condition, with the same error. *)
Theorem get_python_executable_spec (env : Env) (root : string) :
  let exe :=
    if String.eqb (platform_system env) "Windows"
    then os_path_join env root ["Scripts"; "python.exe"]
    else os_path_join env root ["bin"; "python"] in
  let not_found :=
    FileNotFoundError
      ("Python executable not found in virtual environment at " ++ root) in
  get_python_executable env root
    = (if os_path_isfile env exe then Ok exe else Raise not_found)
  /\ (raised (get_python_executable env root) = true
      <-> os_path_isfile env exe = false)
  /\ init env root
     = (if os_path_isfile env exe
        then Ok {| env_path := root; python_exe := exe |}
        else Raise not_found)
  /\ (raised (init env root) = true <-> os_path_isfile env exe = false).
Proof.
  intros exe not_found.
  unfold init, get_python_executable, python_exe_path. fold exe. fold not_found.
  destruct (os_path_isfile env exe); simpl; intuition congruence.
Qed.




(** C2.  With a local version that is not [None] and a fetched payload
    whose [info] holds a [version] that is not [None],
    [package_update_available] returns the latest version, the local
    version, and a flag that is [latest != local]: for two strings it is
    true exactly when they differ, whichever is the greater. *)
Theorem update_available_iff_versions_differ (env : Env) (self : t)
    (name : string) (local_version latest_version : pyval)
    (payload info : list (string * pyval)) :
  get_package_version env self name = Ok local_version ->
  is_None local_version = false ->
  get_package_info env name = Ok (PyDict payload) ->
  dict_get "info" payload = Some (PyDict info) ->
  dict_get "version" info = Some latest_version ->
  is_None latest_version = false ->
  package_update_available env self name
    = Ok (negb (py_eq latest_version local_version), latest_version, local_version)
  /\ (forall a b, latest_version = PyStr a -> local_version = PyStr b ->
      (negb (py_eq latest_version local_version) = true <-> a <> b)).
Proof.
  intros Hl Hln Hr Hi Hv Hvn. split.
  - unfold package_update_available. rewrite Hl. simpl. rewrite Hln.
    rewrite (EnvManagerFacts.get_remote_package_ok _ _ _ Hr). simpl.
    rewrite Hi. simpl. rewrite Hv. simpl. rewrite Hvn. reflexivity.
  - intros a b -> ->. apply EnvManagerFacts.py_ne_str.
Qed.

Lemma update_available_iff_versions_differ_witness :
  package_update_available (host (printing listing_text 0) index_behind) venv "requests"
  = Ok (true, PyStr "2.0.0", PyStr "2.31.0").
Proof.
  apply (update_available_iff_versions_differ
           (host (printing listing_text 0) index_behind) venv "requests"
           (PyStr "2.31.0") (PyStr "2.0.0")
           [("info", PyDict [("name", PyStr "requests"); ("version", PyStr "2.0.0")])]
           [("name", PyStr "requests"); ("version", PyStr "2.0.0")]);
    reflexivity.
Defined.





(** C7, counterexample.  A listing command that exits with code 1 and a
    listing output that is not JSON both make [all_packages] raise a
    [ValueError]: every [except] clause that catches one catches the
    other. *)
Lemma all_packages_failures_same_kind :
  let tool_broke :=
    ValueError "Failed to list packages."
      (Some (CalledProcessError 1 (list_cmd venv))) in
  let unparsable :=
    ValueError "Failed to parse pip output."
      (Some (JSONDecodeError "Expecting value: line 1 column 1 (char 0)")) in
  all_packages (host (printing "Traceback" 1) index_ok) venv = Raise tool_broke
  /\ all_packages (host (printing "Traceback" 0) index_ok) venv = Raise unparsable
  /\ forall k, isinstance tool_broke k = isinstance unparsable k.
Proof. simpl. repeat split. Qed.

(** C7, as the code has it.  [all_packages] raises a [ValueError] when
    the listing command exits with a non-zero code and when its output
    is not valid JSON; the two differ in their message and in the
    exception they are chained from, and not in their kind. *)
Theorem all_packages_failures (env : Env) (self : t) (p : process) :
  popen env (list_cmd self) = Ok p ->
  (returncode p <> 0 ->
   all_packages env self
   = Raise (ValueError "Failed to list packages."
              (Some (CalledProcessError (returncode p) (list_cmd self)))))
  /\ (forall e, returncode p = 0 ->
      json_loads env (stream_text Stdout p) = Raise e ->
      isinstance e CJSONDecodeError = true ->
      all_packages env self
      = Raise (ValueError "Failed to parse pip output." (Some e)))
  /\ (forall m1 c1 m2 c2 k,
      isinstance (ValueError m1 c1) k = isinstance (ValueError m2 c2) k).
Proof.
  intros Hp. unfold all_packages, check_output, try_except. rewrite Hp. simpl.
  repeat split.
  - intros Hc. apply Z.eqb_neq in Hc. rewrite Hc. reflexivity.
  - intros e Hc He Hi. rewrite Hc. simpl. rewrite He, Hi. reflexivity.
Qed.

Lemma all_packages_failures_witness :
  all_packages (host (printing "Traceback" 1) index_ok) venv
  = Raise (ValueError "Failed to list packages."
             (Some (CalledProcessError 1 (list_cmd venv)))).
Proof.
  apply (proj1 (all_packages_failures (host (printing "Traceback" 1) index_ok)
                  venv (printing "Traceback" 1) eq_refl)).
  simpl. lia.
Defined.

(** C4, the code at [install_package("requests", version=">=1.0")] and
    at [version="1.0"]: the package argument of the command is the
    specifier wrapped in two double quote characters, which is not the
    specifier. *)
Lemma install_cmd_quotes_the_specifier :
  install_cmd venv "requests" (Some ">=1.0") false
  = ["/venv/bin/python"; "-m"; "pip"; "install";
     String "034" ("requests>=1.0" ++ String "034" EmptyString)]
  /\ install_cmd venv "requests" (Some "1.0") false
     = ["/venv/bin/python"; "-m"; "pip"; "install";
        String "034" ("requests==1.0" ++ String "034" EmptyString)]
  /\ last (install_cmd venv "requests" (Some ">=1.0") false) EmptyString
     <> "requests>=1.0"
  /\ last (install_cmd venv "requests" (Some "1.0") false) EmptyString
     <> "requests==1.0".
Proof. repeat split; discriminate. Qed.

(** C10.  For every package name, the empty string as version builds
    the command that no version builds, the package name being its last
    argument but for [--upgrade], and [install_package] behaves the
    same on both. *)
Theorem install_cmd_empty_version (self : t) (name : string) (upgrade : bool) :
  install_cmd self name (Some EmptyString) upgrade
  = install_cmd self name None upgrade
  /\ install_cmd self name (Some EmptyString) upgrade
     = List.app [python_exe self; "-m"; "pip"; "install"; name]
         (if upgrade then ["--upgrade"] else [])
  /\ forall env,
       install_package env self name (Some EmptyString) upgrade
       = install_package env self name None upgrade.
Proof.
  repeat split. destruct upgrade; reflexivity.
Qed.

Import ProcessRunner.

(** ** Executions of [run_subprocess_with_streams]

    Every step lowers [measure], every step keeps [Inv], a state that
    satisfies [Inv] and is not the end of the call has an enabled step,
    and the lines already handed to a callback followed by the lines
    still pending are the same list before and after every step. *)
Section RunFacts.

Local Open Scope nat_scope.
Local Open Scope list_scope.

Variable cap : nat.
Variable has_callback : stream -> bool.

Lemma measure_deliver x line st :
  measure (deliver has_callback x line st) = measure st.
Proof. unfold deliver. destruct (has_callback x); reflexivity. Qed.

Lemma step_measure a st st' :
  step_of cap has_callback a st = Some st' -> measure st' < measure st.
Proof.
  destruct a as [| x |]; simpl.
  - unfold child_step. destruct st as [td ex po pe ro re cs m]; simpl.
    destruct ex; [discriminate|].
    destruct td as [|[x c] rest]; [intros [= <-]; unfold measure; simpl; lia|].
    destruct (_ <? _); [|discriminate]. intros [= <-].
    destruct x; unfold measure; simpl; rewrite ?length_app; simpl; lia.
  - unfold reader_step.
    destruct (status (reader_of x st)) eqn:Es; try discriminate.
    destruct (pipe_of x st) as [|c rest] eqn:Ep.
    + destruct (exited st) eqn:Ee; [|discriminate].
      destruct (partial (reader_of x st)) eqn:Epa.
      * intros [= <-]. destruct x; destruct st as [td ex po pe ro re cs m]; simpl in *;
          unfold measure, status_rank, partial_rank; simpl; rewrite ?Es, ?Epa; lia.
      * intros [= <-]. rewrite measure_deliver.
        destruct x; destruct st as [td ex po pe ro re cs m]; simpl in *;
          unfold measure, status_rank, partial_rank; simpl; rewrite ?Es, ?Epa; simpl; lia.
    + destruct (Ascii.eqb c newline); intros [= <-]; rewrite ?measure_deliver;
        destruct x; destruct st as [td ex po pe ro re cs m]; simpl in *; subst;
          unfold measure, status_rank, partial_rank; simpl; rewrite ?Es; simpl;
          repeat match goal with |- context [match ?l with [] => _ | _ :: _ => _ end] => destruct l end; simpl; lia.
  - unfold main_step. destruct st as [td ex po pe ro re cs m]; simpl.
    destruct m; simpl; try discriminate.
    + intros [= <-]. unfold measure, status_rank, partial_rank; simpl.
      destruct ro as [[] [|? ?]]; simpl; lia.
    + intros [= <-]. unfold measure, status_rank, partial_rank; simpl.
      destruct re as [[] [|? ?]]; simpl; lia.
    + destruct (is_finished ro); [|discriminate]. intros [= <-].
      unfold measure; simpl; lia.
    + destruct (is_finished re); [|discriminate]. intros [= <-].
      unfold measure; simpl; lia.
    + destruct ex; [|discriminate]. intros [= <-].
      unfold measure; simpl; lia.
Qed.




Lemma Inv_initial p : Inv (initial p).
Proof.
  split; simpl; try discriminate; auto.
  all: intros []; simpl; intros; try discriminate; reflexivity.
Qed.

Lemma step_Inv a st st' :
  step_of cap has_callback a st = Some st' -> Inv st -> Inv st'.
Proof.
  intros H [H1 H2 H3 H4].
  pose proof (H2 Stdout) as H2o. pose proof (H2 Stderr) as H2e.
  pose proof (H3 Stdout) as H3o. pose proof (H3 Stderr) as H3e.
  clear H2 H3.
  destruct st as [td ex po pe [so pao] [se pae] cs m].
  destruct a as [|[]|]; simpl in *;
    unfold child_step, reader_step, main_step, deliver, is_finished in H;
    simpl in H;
    repeat (match type of H with
            | context [match ?x with _ => _ end] => destruct x eqn:?
            end; simpl in H; try discriminate H);
    injection H as <-;
    repeat match goal with s : stream |- _ => destruct s end;
    (split; simpl; [ | intros [] | intros [] | ]; simpl in *;
     try (destruct m; simpl in * );
     intuition (try congruence; try discriminate)).
  - destruct so; congruence.
  - destruct se; congruence.
Qed.

Lemma exec_Inv sched st st' :
  exec cap has_callback sched st = Some st' -> Inv st -> Inv st'.
Proof.
  revert st. induction sched as [|a sched IH]; intros st; simpl.
  - intros [= <-]; auto.
  - destruct (step_of cap has_callback a st) as [st1|] eqn:E; [|discriminate].
    intros H HI. apply (IH _ H). eapply step_Inv; eauto.
Qed.

Hypothesis cap_pos : 0 < cap.

Lemma progress st :
  Inv st -> returned st = false ->
  exists a st', step_of cap has_callback a st = Some st'.
Proof.
  intros [H1 H2 H3 H4] Hr.
  pose proof (H2 Stdout) as H2o. pose proof (H2 Stderr) as H2e. clear H2 H3.
  destruct st as [td ex po pe [so pao] [se pae] cs m].
  unfold returned in Hr. simpl in *.
  assert (Hread : forall x c rest pa,
    exists st', reader_step has_callback x
      (set_reader x {| status := Running; partial := pa |}
         (set_pipe x (c :: rest)
           {| todo := td; exited := ex; pipe_out := po; pipe_err := pe;
              rd_out := {| status := so; partial := pao |};
              rd_err := {| status := se; partial := pae |};
              calls := cs; main := m |})) = Some st').
  { intros x c rest pa. unfold reader_step.
    destruct x; simpl; destruct (Ascii.eqb c newline); eexists; reflexivity. }
  assert (Heof : forall x pa, ex = true ->
    exists st', reader_step has_callback x
      (set_reader x {| status := Running; partial := pa |}
         (set_pipe x []
           {| todo := td; exited := ex; pipe_out := po; pipe_err := pe;
              rd_out := {| status := so; partial := pao |};
              rd_err := {| status := se; partial := pae |};
              calls := cs; main := m |})) = Some st').
  { intros x pa ->. unfold reader_step.
    destruct x; simpl; destruct pa; eexists; reflexivity. }
  destruct m; try discriminate.
  - exists Main. eexists. reflexivity.
  - exists Main. eexists. reflexivity.
  - destruct H4 as [Ho He].
    destruct so; [congruence | | exists Main; eexists; reflexivity].
    destruct po as [|c rest].
    2:{ exists (Reader Stdout). apply (Hread Stdout c rest pao). }
    destruct ex.
    { exists (Reader Stdout). apply (Heof Stdout pao eq_refl). }
    destruct td as [|[x c] rest].
    { exists Child. eexists. reflexivity. }
    destruct x.
    { exists Child. unfold step_of, child_step; simpl.
      apply Nat.ltb_lt in cap_pos. rewrite cap_pos. eexists; reflexivity. }
    destruct (List.length pe <? cap) eqn:El.
    { exists Child. unfold step_of, child_step; simpl. rewrite El.
      eexists; reflexivity. }
    destruct pe as [|c' rest'].
    { apply Nat.ltb_ge in El. simpl in El. lia. }
    destruct se; [congruence | | destruct (H2e eq_refl); discriminate].
    exists (Reader Stderr). apply (Hread Stderr c' rest' pae).
  - destruct H4 as [Ho He]. subst so.
    destruct (H2o eq_refl) as (-> & -> & ->).
    destruct se; [congruence | | exists Main; eexists; reflexivity].
    exists (Reader Stderr).
    destruct pe as [|c rest].
    + apply (Heof Stderr pae eq_refl).
    + apply (Hread Stderr c rest pae).
  - destruct H4 as [Ho He]. subst so.
    destruct (H2o eq_refl) as (-> & _).
    exists Main. eexists. reflexivity.
Qed.

Lemma first_enabled_progress st :
  Inv st -> returned st = false ->
  exists a st', first_enabled cap has_callback st = Some a
                /\ step_of cap has_callback a st = Some st'.
Proof.
  intros HI Hr. destruct (progress st HI Hr) as (a & st' & Ha).
  unfold first_enabled.
  destruct (find _ _) as [b|] eqn:Ef.
  - apply find_some in Ef. destruct Ef as [_ Hb].
    destruct (step_of cap has_callback b st) as [st1|] eqn:Eb; [|discriminate].
    exists b, st1. auto.
  - exfalso.
    assert (Hin : In a [Main; Reader Stdout; Reader Stderr; Child]).
    { destruct a as [|[]|]; simpl; auto. }
    apply (find_none _ _ Ef) in Hin. rewrite Ha in Hin. discriminate.
Qed.

Lemma returned_rank st : measure st = 0 -> returned st = true.
Proof.
  unfold measure, returned. destruct (main st); simpl; auto; lia.
Qed.

(** With enough fuel the first-enabled schedule runs the call to its end. *)
Lemma first_schedule_complete fuel st :
  Inv st -> measure st <= fuel ->
  exists st', exec cap has_callback (first_schedule cap has_callback fuel st) st
              = Some st' /\ returned st' = true.
Proof.
  revert st. induction fuel as [|fuel IH]; intros st HI Hm.
  - exists st. split; [reflexivity|]. apply returned_rank. lia.
  - simpl. destruct (returned st) eqn:Er.
    + exists st. auto.
    + destruct (first_enabled_progress st HI Er) as (a & st1 & Ea & Es).
      rewrite Ea, Es. simpl. rewrite Es.
      apply IH.
      * eapply step_Inv; eauto.
      * apply step_measure in Es. lia.
Qed.

Lemma step_lines a st st' x :
  step_of cap has_callback a st = Some st' -> Inv st ->
  (has_callback x = true ->
   lines_to x (calls st') ++ pending_lines x st'
   = lines_to x (calls st) ++ pending_lines x st)
  /\ (has_callback x = false -> lines_to x (calls st') = lines_to x (calls st)).
Proof.
  intros H [H1 H2 H3 H4].
  pose proof (H3 Stdout) as H3o. pose proof (H3 Stderr) as H3e.
  clear H2 H3.
  destruct st as [td ex po pe [so pao] [se pae] cs m].
  destruct a as [|[]|]; simpl in *;
    unfold child_step, reader_step, main_step, deliver, is_finished in H;
    simpl in H;
    repeat (match type of H with
            | context [match ?x with _ => _ end] => destruct x eqn:?
            end; simpl in H; try discriminate H);
    injection H as <-;
    repeat match goal with s : stream |- _ => destruct s end;
    unfold pending_lines, lines_to, chars_of; simpl in *;
    (split; intros Hcb; try congruence);
    repeat rewrite ?filter_app, ?map_app, <- ?app_assoc; simpl;
    repeat match goal with E : Ascii.eqb _ _ = _ |- _ => rewrite E end; simpl;
    rewrite <- ?app_assoc, ?app_nil_r; try reflexivity.
  - rewrite (H1 eq_refl). reflexivity.
  - rewrite (H1 eq_refl). reflexivity.
  - rewrite H3o by tauto. reflexivity.
  - rewrite H3e by tauto. reflexivity.
Qed.

Lemma exec_lines sched st st' x :
  exec cap has_callback sched st = Some st' -> Inv st ->
  (has_callback x = true ->
   lines_to x (calls st') ++ pending_lines x st'
   = lines_to x (calls st) ++ pending_lines x st)
  /\ (has_callback x = false -> lines_to x (calls st') = lines_to x (calls st)).
Proof.
  revert st. induction sched as [|a sched IH]; intros st; simpl.
  - intros [= <-] _. auto.
  - destruct (step_of cap has_callback a st) as [st1|] eqn:E; [|discriminate].
    intros H HI.
    destruct (step_lines _ _ _ x E HI) as [Ha Hb].
    destruct (IH _ H (step_Inv _ _ _ E HI)) as [Hc Hd].
    split; intros Hcb.
    + rewrite (Hc Hcb). auto.
    + rewrite (Hd Hcb). auto.
Qed.

(** At the end of the function nothing is pending. *)
Lemma returned_drained st :
  Inv st -> returned st = true ->
  exited st = true /\ todo st = []
  /\ pipe_out st = [] /\ pipe_err st = []
  /\ rd_out st = {| status := Finished; partial := [] |}
  /\ rd_err st = {| status := Finished; partial := [] |}.
Proof.
  intros [H1 H2 H3 H4] Hr. unfold returned in Hr.
  destruct (main st); try discriminate.
  destruct H4 as (Ho & He & Hex).
  destruct (H2 Stdout Ho) as (_ & Hpo & Hpao).
  destruct (H2 Stderr He) as (_ & Hpe & Hpae).
  simpl in *.
  destruct (rd_out st) as [so pao], (rd_err st) as [se pae]; simpl in *.
  subst. auto 10.
Qed.

Lemma returned_calls p sched st x :
  exec cap has_callback sched (initial p) = Some st -> returned st = true ->
  lines_to x (calls st) = if has_callback x then emitted_lines x p else [].
Proof.
  intros He Hr.
  pose proof (exec_Inv _ _ _ He (Inv_initial p)) as HI.
  destruct (returned_drained st HI Hr) as (_ & Ht & Hpo & Hpe & Hro & Hre).
  destruct (exec_lines _ _ _ x He (Inv_initial p)) as [Ha Hb].
  destruct (has_callback x) eqn:Hcb.
  - specialize (Ha eq_refl).
    assert (Hp : pending_lines x st = []).
    { unfold pending_lines. rewrite Ht.
      destruct x; simpl; rewrite ?Hpo, ?Hpe, ?Hro, ?Hre; reflexivity. }
    rewrite Hp, app_nil_r in Ha. rewrite Ha.
    unfold pending_lines, emitted_lines. destruct x; reflexivity.
  - rewrite (Hb eq_refl). reflexivity.
Qed.

End RunFacts.




(** C3, counterexample.  For a child that exits with code 0 the call
    returns [None], which is not the exit code. *)
Lemma run_returns_none_not_the_exit_code :
  let quiet := {| output := []; returncode := 0 |} in
  run_subprocess_with_streams 4 (host quiet index_ok) ["/venv/bin/python"; "-V"]
    (fun _ => true)
    [Main; Main; Child; Reader Stdout; Reader Stderr; Main; Main; Main]
  = Some (Ok PyNone, [])
  /\ @Ok pyval PyNone <> Ok (PyInt (returncode quiet)).
Proof. split; [reflexivity|discriminate]. Qed.

(** C3, as the code has it.  For every argv whose child starts and
    terminates, the call reaches its end under some interleaving, and
    under every interleaving that reaches it: it returns [None] when the
    exit code is zero and raises a [ValueError] naming the argv, chained
    from a [CalledProcessError] that carries the exit code and the
    argv, when it is not; by then each callback has been called with
    every line the child emitted on its stream, in order. *)
Theorem run_subprocess_with_streams_outcome (cap : nat) (env : Env)
    (args : list string) (has_callback : stream -> bool) (p : process) :
  (0 < cap)%nat ->
  popen env args = Ok p ->
  let outcome :=
    if Z.eqb (returncode p) 0 then Ok PyNone
    else Raise (ValueError ("Failed to call " ++ String.concat " " args)
                  (Some (CalledProcessError (returncode p) args))) in
  (exists sched cs,
     run_subprocess_with_streams cap env args has_callback sched
     = Some (outcome, cs))
  /\ forall sched r cs,
       run_subprocess_with_streams cap env args has_callback sched
       = Some (r, cs) ->
       r = outcome
       /\ forall x, lines_to x cs
                    = if has_callback x then emitted_lines x p else [].
Proof.
  intros Hcap Hp outcome.
  assert (Hout : check_returncode args p = outcome).
  { unfold check_returncode, outcome, join_args.
    destruct (Z.eqb (returncode p) 0); reflexivity. }
  unfold run_subprocess_with_streams. rewrite Hp. split.
  - destruct (first_schedule_complete cap has_callback Hcap
                (measure (initial p)) (initial p) (Inv_initial p) (Nat.le_refl _))
      as (st & Hrun & Hret).
    exists (first_schedule cap has_callback (measure (initial p)) (initial p)), (calls st).
    rewrite Hrun, Hret, Hout. reflexivity.
  - intros sched r cs.
    destruct (exec cap has_callback sched (initial p)) as [st|] eqn:He; [|discriminate].
    destruct (returned st) eqn:Hr; [|discriminate].
    intros [= <- <-]. split; [exact Hout|].
    intros x. eapply returned_calls; eauto.
Qed.

Lemma run_subprocess_with_streams_outcome_witness :
  let args := ["/venv/bin/python"; "-m"; "pip"; "check"] in
  let outcome :=
    Raise (ValueError "Failed to call /venv/bin/python -m pip check"
             (Some (CalledProcessError 2 args))) in
  (exists sched cs,
     run_subprocess_with_streams 2 (host failing_child index_ok) args
       (fun _ => true) sched = Some (outcome, cs))
  /\ forall sched r cs,
       run_subprocess_with_streams 2 (host failing_child index_ok) args
         (fun _ => true) sched = Some (r, cs) ->
       r = outcome /\ forall x, lines_to x cs = emitted_lines x failing_child.
Proof.
  apply (run_subprocess_with_streams_outcome 2 (host failing_child index_ok)
           ["/venv/bin/python"; "-m"; "pip"; "check"] (fun _ => true)
           failing_child).
  - lia.
  - reflexivity.
Defined.

(** * Further properties of the code *)

(** ** The environment manager *)

Module ManagerExtras.
Import EnvManager.

(** *** The install command *)

(** X1.  The install command is always the environment's own
    interpreter, [-m pip install], exactly one package argument, and
    [--upgrade] as the last argument exactly when an upgrade is asked
    for; the package argument is the bare name unless a non-empty
    version is given. *)
Theorem install_cmd_shape (self : t) (name : string) (version : option string)
    (upgrade : bool) :
  exists arg,
    install_cmd self name version upgrade
    = List.app [python_exe self; "-m"; "pip"; "install"; arg]
        (if upgrade then ["--upgrade"] else [])
    /\ (arg = name
        \/ exists v, version = Some v /\ v <> EmptyString
                     /\ (arg = dquote ++ name ++ v ++ dquote
                         \/ arg = dquote ++ name ++ "==" ++ v ++ dquote)).
Proof.
  unfold install_cmd. destruct version as [v|].
  - destruct (String.eqb v EmptyString) eqn:Ev; simpl.
    + exists name. split; [destruct upgrade; reflexivity|]. left. reflexivity.
    + apply String.eqb_neq in Ev.
      destruct (starts_with_specifier v); simpl.
      * exists (dquote ++ name ++ v ++ dquote).
        split; [destruct upgrade; reflexivity|]. right. exists v. auto.
      * exists (dquote ++ name ++ "==" ++ v ++ dquote).
        split; [destruct upgrade; reflexivity|]. right. exists v. auto.
  - simpl. exists name. split; [destruct upgrade; reflexivity|]. left. reflexivity.
Qed.

(** X2.  [install_package] raises exactly when the child cannot be
    started, and then raises what starting it raised: an exit status is
    never an exception, and a failure to start is never turned into
    [False]. *)
Theorem install_package_raises_iff (env : Env) (self : t) (name : string)
    (version : option string) (upgrade : bool) (e : exn) :
  install_package env self name version upgrade = Raise e
  <-> popen env (install_cmd self name version upgrade) = Raise e
      /\ isinstance e CCalledProcessError = false.
Proof.
  unfold install_package, check_call, try_except.
  destruct (popen env _) as [p|e0]; cbn [bind].
  - destruct (Z.eqb (returncode p) 0); cbn;
      (split; [intros H; discriminate H | intros [H _]; discriminate H]).
  - destruct (isinstance e0 CCalledProcessError) eqn:Ei; split.
    + discriminate.
    + intros [[= ->] H]. congruence.
    + intros [= ->]. auto.
    + intros [[= ->] _]. reflexivity.
Qed.

(** *** Listing *)

(** X3.  [all_packages] returns a value exactly when the listing command
    starts, exits with code 0 and prints text that [json.loads] accepts;
    it returns the parsed value as it is. *)
Theorem all_packages_ok_iff (env : Env) (self : t) (v : pyval) :
  all_packages env self = Ok v
  <-> exists p, popen env (list_cmd self) = Ok p
                /\ returncode p = 0
                /\ json_loads env (stream_text Stdout p) = Ok v.
Proof.
  unfold all_packages, check_output, try_except.
  destruct (popen env (list_cmd self)) as [p|e]; cbn [bind].
  - destruct (Z.eqb (returncode p) 0) eqn:Ec; cbn [bind].
    + apply Z.eqb_eq in Ec.
      destruct (json_loads env (stream_text Stdout p)) as [w|e] eqn:Ej.
      * split.
        -- intros [= ->]. exists p. auto.
        -- intros (p' & [= <-] & _ & Hj). congruence.
      * split.
        -- destruct (isinstance e CJSONDecodeError); intros H; discriminate H.
        -- intros (p' & [= <-] & _ & Hj). congruence.
    + apply Z.eqb_neq in Ec. split.
      * destruct (isinstance _ CCalledProcessError); cbn [bind];
          intros H; discriminate H.
      * intros (p' & [= <-] & Hc & _). contradiction.
  - split.
    + destruct (isinstance e CCalledProcessError); cbn [bind];
        intros H; discriminate H.
    + intros (p' & Hp & _). discriminate.
Qed.

(** X4.  When the listing command cannot be started, [all_packages]
    raises the error of the start (an [OSError]) unchanged, not a
    [ValueError]. *)
Theorem all_packages_spawn_failure (env : Env) (self : t) (e : exn) :
  popen env (list_cmd self) = Raise e ->
  isinstance e CCalledProcessError = false ->
  all_packages env self = Raise e.
Proof.
  intros Hp Hi. unfold all_packages, check_output, try_except.
  rewrite Hp. cbn [bind]. rewrite Hi. reflexivity.
Qed.

(** *** Looking a package up *)

Lemma loop_lower env n1 n2 l :
  str_lower env n1 = str_lower env n2 ->
  get_local_package_loop env n1 l = get_local_package_loop env n2 l.
Proof.
  intros H. induction l as [|pkg l IH]; simpl; [reflexivity|].
  rewrite H, IH. reflexivity.
Qed.

(** X5.  Two names that are equal once lowered get the same answer from
    [get_local_package], [get_package_version] and
    [package_is_installed]. *)
Theorem get_local_package_case_insensitive (env : Env) (self : t)
    (n1 n2 : string) :
  str_lower env n1 = str_lower env n2 ->
  get_local_package env self n1 = get_local_package env self n2
  /\ get_package_version env self n1 = get_package_version env self n2
  /\ package_is_installed env self n1 = package_is_installed env self n2.
Proof.
  intros H.
  assert (H1 : get_local_package env self n1 = get_local_package env self n2).
  { unfold get_local_package.
    destruct (all_packages env self) as [v|e]; simpl; [|reflexivity].
    destruct (py_iter v) as [l|e]; simpl; [|reflexivity].
    apply loop_lower, H. }
  assert (H2 : get_package_version env self n1 = get_package_version env self n2).
  { unfold get_package_version. rewrite H1. reflexivity. }
  split; [exact H1|]. split; [exact H2|].
  unfold package_is_installed. rewrite H2. reflexivity.
Qed.

Lemma loop_step_named env name pkg rest :
  entry_named pkg = true ->
  get_local_package_loop env name (pkg :: rest)
  = if entry_matches env name pkg then Ok pkg
    else get_local_package_loop env name rest.
Proof.
  destruct pkg as [| | | |xs|items]; try discriminate.
  simpl. destruct (dict_get "name" items) as [[| | |nm| |]|]; try discriminate.
  intros _. reflexivity.
Qed.

Lemma loop_find env name l :
  forallb entry_named l = true ->
  get_local_package_loop env name l
  = Ok (match find (entry_matches env name) l with
        | Some pkg => pkg
        | None => PyNone
        end).
Proof.
  induction l as [|pkg l IH]; [reflexivity|].
  intros H. apply andb_true_iff in H. destruct H as [Hp Hl].
  rewrite (loop_step_named _ _ _ _ Hp). cbn [find].
  destruct (entry_matches env name pkg); [reflexivity|]. apply IH, Hl.
Qed.

Lemma get_local_package_list env self name l :
  all_packages env self = Ok (PyList l) ->
  get_local_package env self name = get_local_package_loop env name l.
Proof. intros H. unfold get_local_package. rewrite H. reflexivity. Qed.

Lemma get_local_package_find env self name l :
  all_packages env self = Ok (PyList l) ->
  forallb entry_named l = true ->
  get_local_package env self name
  = Ok (match find (entry_matches env name) l with
        | Some pkg => pkg
        | None => PyNone
        end).
Proof.
  intros Ha Hl. rewrite (get_local_package_list _ _ _ _ Ha).
  apply loop_find, Hl.
Qed.

(** X6.  On a listing whose entries all have a string [name],
    [get_local_package] returns the first entry whose lowered name is
    the lowered package name, and [None] when there is none. *)
Theorem get_local_package_first_match (env : Env) (self : t) (name : string)
    (l : list pyval) :
  all_packages env self = Ok (PyList l) ->
  forallb entry_named l = true ->
  get_local_package env self name
  = Ok (match find (entry_matches env name) l with
        | Some pkg => pkg
        | None => PyNone
        end).
Proof. exact (get_local_package_find env self name l). Qed.

Lemma get_local_package_first_match_witness :
  get_local_package (host (printing listing_text 0) index_ok) venv "REQUESTS"
  = Ok (PyDict [("name", PyStr "Requests"); ("version", PyStr "2.31.0")]).
Proof.
  apply (get_local_package_first_match (host (printing listing_text 0) index_ok)
           venv "REQUESTS"
           [PyDict [("name", PyStr "Requests"); ("version", PyStr "2.31.0")]]);
    reflexivity.
Defined.

Lemma loop_nameless env name pre items post :
  forallb entry_named pre = true ->
  forallb (fun pkg => negb (entry_matches env name pkg)) pre = true ->
  dict_get "name" items = None ->
  get_local_package_loop env name (pre ++ PyDict items :: post)%list
  = Raise (KeyError "name").
Proof.
  intros Hn Hm Hi. induction pre as [|pkg pre IH].
  - simpl. rewrite Hi. reflexivity.
  - apply andb_true_iff in Hn. destruct Hn as [Hp Hn].
    apply andb_true_iff in Hm. destruct Hm as [Hq Hm].
    change ((pkg :: pre) ++ PyDict items :: post)%list
      with (pkg :: (pre ++ PyDict items :: post))%list.
    rewrite (loop_step_named _ _ _ _ Hp).
    apply negb_true_iff in Hq. rewrite Hq. apply IH; assumption.
Qed.

(** X7.  An entry without [name] that the scan reaches before a match
    makes every lookup raise [KeyError('name')], whatever follows it in
    the listing. *)
Theorem nameless_entry_before_match_raises (env : Env) (self : t)
    (name : string) (pre post : list pyval) (items : list (string * pyval)) :
  all_packages env self = Ok (PyList (pre ++ PyDict items :: post)) ->
  forallb entry_named pre = true ->
  forallb (fun pkg => negb (entry_matches env name pkg)) pre = true ->
  dict_get "name" items = None ->
  get_local_package env self name = Raise (KeyError "name")
  /\ get_package_version env self name = Raise (KeyError "name")
  /\ package_is_installed env self name = Raise (KeyError "name")
  /\ package_update_available env self name = Raise (KeyError "name").
Proof.
  intros Ha Hn Hm Hi.
  assert (H1 : get_local_package env self name = Raise (KeyError "name")).
  { rewrite (get_local_package_list _ _ _ _ Ha). apply loop_nameless; assumption. }
  assert (H2 : get_package_version env self name = Raise (KeyError "name")).
  { unfold get_package_version. rewrite H1. reflexivity. }
  repeat split; auto.
  - unfold package_is_installed. rewrite H2. reflexivity.
  - unfold package_update_available. rewrite H2. reflexivity.
Qed.

Import MoreExamples.

Lemma find_none_of_forallb env name l :
  forallb (fun pkg => negb (entry_matches env name pkg)) l = true ->
  find (entry_matches env name) l = None.
Proof.
  induction l as [|pkg l IH]; [reflexivity|]. simpl.
  intros H. apply andb_true_iff in H. destruct H as [Hp Hl].
  apply negb_true_iff in Hp. rewrite Hp. apply IH, Hl.
Qed.

Lemma matches_nonempty env name items :
  entry_matches env name (PyDict items) = true ->
  py_truthy (PyDict items) = true.
Proof. destruct items; [discriminate|reflexivity]. Qed.

(** The version of the entry the scan finds. *)
Lemma get_package_version_found env self name l items :
  all_packages env self = Ok (PyList l) ->
  forallb entry_named l = true ->
  find (entry_matches env name) l = Some (PyDict items) ->
  get_package_version env self name = py_getitem (PyDict items) "version".
Proof.
  intros Ha Hl Hf. unfold get_package_version.
  rewrite (get_local_package_find _ _ _ _ Ha Hl), Hf. cbn [bind].
  apply find_some in Hf. destruct Hf as [_ Hm].
  rewrite (matches_nonempty _ _ _ Hm). reflexivity.
Qed.

(** X8.  For a package that the listing does not hold (an empty listing
    included): no entry, no version, not installed, and the update check
    answers [(False, None, None)] whatever the index says. *)
Theorem absent_package (env : Env) (self : t) (name : string) (l : list pyval) :
  all_packages env self = Ok (PyList l) ->
  forallb entry_named l = true ->
  forallb (fun pkg => negb (entry_matches env name pkg)) l = true ->
  get_local_package env self name = Ok PyNone
  /\ get_package_version env self name = Ok PyNone
  /\ package_is_installed env self name = Ok false
  /\ package_update_available env self name = Ok (false, PyNone, PyNone).
Proof.
  intros Ha Hl Hm.
  assert (H1 : get_local_package env self name = Ok PyNone).
  { rewrite (get_local_package_find _ _ _ _ Ha Hl).
    rewrite (find_none_of_forallb _ _ _ Hm). reflexivity. }
  assert (H2 : get_package_version env self name = Ok PyNone).
  { unfold get_package_version. rewrite H1. reflexivity. }
  repeat split; auto.
  - unfold package_is_installed. rewrite H2. reflexivity.
  - unfold package_update_available. rewrite H2. reflexivity.
Qed.

Lemma absent_package_witness :
  let env := host (printing listing_text 0) index_ok in
  get_local_package env venv "flask" = Ok PyNone
  /\ get_package_version env venv "flask" = Ok PyNone
  /\ package_is_installed env venv "flask" = Ok false
  /\ package_update_available env venv "flask" = Ok (false, PyNone, PyNone).
Proof.
  apply (absent_package (host (printing listing_text 0) index_ok) venv "flask"
           [PyDict [("name", PyStr "Requests"); ("version", PyStr "2.31.0")]]);
    reflexivity.
Defined.

(** X9.  When the entry found has no [version], [get_package_version],
    [package_is_installed] and [package_update_available] raise
    [KeyError('version')]. *)
Theorem entry_without_version_raises (env : Env) (self : t) (name : string)
    (l : list pyval) (items : list (string * pyval)) :
  all_packages env self = Ok (PyList l) ->
  forallb entry_named l = true ->
  find (entry_matches env name) l = Some (PyDict items) ->
  dict_get "version" items = None ->
  get_package_version env self name = Raise (KeyError "version")
  /\ package_is_installed env self name = Raise (KeyError "version")
  /\ package_update_available env self name = Raise (KeyError "version").
Proof.
  intros Ha Hl Hf Hv.
  assert (H : get_package_version env self name = Raise (KeyError "version")).
  { rewrite (get_package_version_found _ _ _ _ _ Ha Hl Hf). simpl.
    rewrite Hv. reflexivity. }
  repeat split; auto.
  - unfold package_is_installed. rewrite H. reflexivity.
  - unfold package_update_available. rewrite H. reflexivity.
Qed.

Lemma entry_without_version_raises_witness :
  let env := listing_host listing_versions index_ok in
  get_package_version env venv "Editable" = Raise (KeyError "version")
  /\ package_is_installed env venv "Editable" = Raise (KeyError "version")
  /\ package_update_available env venv "Editable" = Raise (KeyError "version").
Proof.
  apply (entry_without_version_raises (listing_host listing_versions index_ok)
           venv "Editable"
           [PyDict [("name", PyStr "editable")];
            PyDict [("name", PyStr "ghost"); ("version", PyNone)];
            PyDict [("name", PyStr "Requests"); ("version", PyStr "2.31.0")]]
           [("name", PyStr "editable")]);
    reflexivity.
Defined.

(** X10.  [package_is_installed] is [True] exactly when the first
    matching entry has a [version] that is not null: a package listed
    with a null version counts as not installed. *)
Theorem package_is_installed_iff (env : Env) (self : t) (name : string)
    (l : list pyval) :
  all_packages env self = Ok (PyList l) ->
  forallb entry_named l = true ->
  (package_is_installed env self name = Ok true
   <-> exists items v,
         find (entry_matches env name) l = Some (PyDict items)
         /\ dict_get "version" items = Some v
         /\ is_None v = false).
Proof.
  intros Ha Hl. unfold package_is_installed.
  destruct (find (entry_matches env name) l) as [pkg|] eqn:Hf.
  - pose proof (find_some _ _ Hf) as [_ Hm].
    destruct pkg as [| | | |xs|items]; try discriminate.
    rewrite (get_package_version_found _ _ _ _ _ Ha Hl Hf). simpl.
    destruct (dict_get "version" items) as [v|] eqn:Hv; cbn [bind].
    + split.
      * intros [= H]. apply negb_true_iff in H. exists items, v. auto.
      * intros (items' & v' & [= <-] & Hv' & Hn).
        rewrite Hv in Hv'. injection Hv' as <-. rewrite Hn. reflexivity.
    + split; [discriminate|].
      intros (items' & v' & [= <-] & Hv' & _). congruence.
  - assert (H : get_package_version env self name = Ok PyNone).
    { unfold get_package_version.
      rewrite (get_local_package_find _ _ _ _ Ha Hl), Hf. reflexivity. }
    rewrite H. cbn. split; [discriminate|].
    intros (items & v & Hx & _). discriminate.
Qed.

Lemma package_is_installed_iff_witness :
  let env := listing_host listing_versions index_ok in
  package_is_installed env venv "requests" = Ok true
  /\ package_is_installed env venv "ghost" = Ok false.
Proof.
  split.
  - apply (package_is_installed_iff (listing_host listing_versions index_ok)
             venv "requests"
             [PyDict [("name", PyStr "editable")];
              PyDict [("name", PyStr "ghost"); ("version", PyNone)];
              PyDict [("name", PyStr "Requests"); ("version", PyStr "2.31.0")]]
             eq_refl eq_refl).
    exists [("name", PyStr "Requests"); ("version", PyStr "2.31.0")], (PyStr "2.31.0").
    repeat split.
  - reflexivity.
Defined.

Lemma nameless_entry_before_match_raises_witness :
  let env := listing_host listing_nameless index_ok in
  get_local_package env venv "flask" = Raise (KeyError "name")
  /\ get_package_version env venv "flask" = Raise (KeyError "name")
  /\ package_is_installed env venv "flask" = Raise (KeyError "name")
  /\ package_update_available env venv "flask" = Raise (KeyError "name").
Proof.
  apply (nameless_entry_before_match_raises
           (listing_host listing_nameless index_ok) venv "flask"
           [PyDict [("name", PyStr "pip"); ("version", PyStr "24.0")];
            PyDict [("name", PyStr "Requests"); ("version", PyStr "2.31.0")]]
           [] [("version", PyStr "1.0")]);
    reflexivity.
Defined.

Lemma get_local_package_case_insensitive_witness :
  let env := host (printing listing_text 0) index_ok in
  get_local_package env venv "REQUESTS" = get_local_package env venv "requests"
  /\ get_package_version env venv "REQUESTS" = get_package_version env venv "requests"
  /\ package_is_installed env venv "REQUESTS" = package_is_installed env venv "requests".
Proof.
  apply (get_local_package_case_insensitive
           (host (printing listing_text 0) index_ok) venv "REQUESTS" "requests").
  reflexivity.
Defined.

Lemma all_packages_spawn_failure_witness :
  let env :=
    {| platform_system := "Linux";
       os_path_join := posix_join;
       os_path_isfile := fun _ => true;
       str_lower := ascii_lower;
       json_loads := sample_json_loads;
       popen := fun _ => Raise (PermissionError "[Errno 13] Permission denied");
       requests_get := fun _ => index_ok |} in
  all_packages env venv = Raise (PermissionError "[Errno 13] Permission denied").
Proof.
  intros env.
  apply (all_packages_spawn_failure env venv
           (PermissionError "[Errno 13] Permission denied"));
    reflexivity.
Defined.

(** *** The update check *)

(** X11.  When [package_is_installed] is [False] the update check
    answers [(False, None, None)], and when it raises the update check
    raises the same exception; the index plays no part. *)
Theorem update_check_follows_is_installed (env : Env) (self : t) (name : string) :
  (package_is_installed env self name = Ok false ->
   package_update_available env self name = Ok (false, PyNone, PyNone))
  /\ (forall e, package_is_installed env self name = Raise e ->
      package_update_available env self name = Raise e).
Proof.
  unfold package_is_installed, package_update_available.
  destruct (get_package_version env self name) as [v|e0]; cbn [bind]; split.
  - intros [= H]. apply negb_false_iff in H. rewrite H. reflexivity.
  - discriminate.
  - discriminate.
  - intros e [= ->]. reflexivity.
Qed.

(** X12.  Every tuple the update check returns has the installed version
    as third component, no latest version when there is no installed
    version, a false flag when there is no latest version, and otherwise
    the flag [latest != installed]. *)
Theorem update_check_result_invariant (env : Env) (self : t) (name : string)
    (flag : bool) (latest local_version : pyval) :
  package_update_available env self name = Ok (flag, latest, local_version) ->
  get_package_version env self name = Ok local_version
  /\ (is_None local_version = true -> is_None latest = true)
  /\ (is_None latest = true -> flag = false)
  /\ (is_None latest = false -> flag = negb (py_eq latest local_version)).
Proof.
  unfold package_update_available.
  destruct (get_package_version env self name) as [lv|e]; cbn [bind];
    [|discriminate].
  destruct (is_None lv) eqn:Hl.
  { destruct lv; try discriminate Hl. intros [= <- <- <-]. repeat split; auto. }
  destruct (get_remote_package env name) as [rd|e]; cbn [bind]; [|discriminate].
  destruct (is_None rd).
  { intros [= <- <- <-]. repeat split; auto; try (intros H; discriminate H); congruence. }
  destruct (py_contains "info" rd) as [[]|e]; cbn [bind negb]; try discriminate.
  destruct (py_getitem rd "info") as [info|e]; cbn [bind]; try discriminate.
  destruct (py_contains "version" info) as [[]|e]; cbn [bind negb]; try discriminate.
  destruct (py_getitem info "version") as [lat|e]; cbn [bind]; try discriminate.
  destruct (is_None lat) eqn:Hn; [discriminate|].
  intros [= <- <- <-]. repeat split; auto; congruence.
Qed.

Lemma update_check_result_invariant_witness :
  let env := host (printing listing_text 0) index_ok in
  get_package_version env venv "requests" = Ok (PyStr "2.31.0")
  /\ (is_None (PyStr "2.31.0") = true -> is_None (PyStr "2.32.3") = true)
  /\ (is_None (PyStr "2.32.3") = true -> true = false)
  /\ (is_None (PyStr "2.32.3") = false
      -> true = negb (py_eq (PyStr "2.32.3") (PyStr "2.31.0"))).
Proof.
  apply (update_check_result_invariant (host (printing listing_text 0) index_ok)
           venv "requests" true (PyStr "2.32.3") (PyStr "2.31.0")).
  reflexivity.
Defined.


(** X13.  [get_remote_package] never raises a [GetPackageInfoError] or a
    [RequestException]; what it raises was raised by the HTTP library
    and is neither. *)
Theorem get_remote_package_never_leaks (env : Env) (name : string) (e : exn) :
  get_remote_package env name = Raise e ->
  isinstance e CGetPackageInfoError = false
  /\ isinstance e CRequestException = false.
Proof.
  unfold get_remote_package, try_except.
  rewrite EnvManagerFacts.get_package_info_cases.
  destruct (requests_get env _) as [r|e0].
  - destruct ((400 <=? status_code r) && (status_code r <? 600)).
    + cbn. discriminate.
    + destruct (json r) as [v|e1]; [discriminate|].
      destruct (isinstance e1 CRequestException) eqn:E1.
      * cbn. discriminate.
      * destruct (isinstance e1 CGetPackageInfoError) eqn:E2; [discriminate|].
        intros [= <-]. auto.
  - destruct (isinstance e0 CRequestException) eqn:E1.
    + cbn. discriminate.
    + destruct (isinstance e0 CGetPackageInfoError) eqn:E2; [discriminate|].
      intros [= <-]. auto.
Qed.

Lemma get_remote_package_never_leaks_witness :
  isinstance (JSONDecodeError "Expecting value") CGetPackageInfoError = false
  /\ isinstance (JSONDecodeError "Expecting value") CRequestException = false.
Proof.
  apply (get_remote_package_never_leaks
           (host (printing listing_text 0) index_plain_json_error) "requests"
           (JSONDecodeError "Expecting value")).
  reflexivity.
Defined.

(** X14.  A body that is the JSON [null] is taken for a failed lookup:
    no update, no latest version, the installed version. *)
Theorem update_check_null_payload (env : Env) (self : t) (name : string)
    (local_version : pyval) :
  get_package_version env self name = Ok local_version ->
  is_None local_version = false ->
  get_package_info env name = Ok PyNone ->
  package_update_available env self name = Ok (false, PyNone, local_version).
Proof.
  intros Hl Hn Hr. unfold package_update_available.
  rewrite Hl. cbn [bind]. rewrite Hn.
  rewrite (EnvManagerFacts.get_remote_package_ok _ _ _ Hr). reflexivity.
Qed.

Lemma update_check_null_payload_witness :
  package_update_available (host (printing listing_text 0) index_null) venv "requests"
  = Ok (false, PyNone, PyStr "2.31.0").
Proof.
  apply (update_check_null_payload (host (printing listing_text 0) index_null)
           venv "requests" (PyStr "2.31.0"));
    reflexivity.
Defined.

(** X15.  A payload whose [info] has a null [version] makes the update
    check raise [ValueError("Invalid package data.")]. *)
Theorem update_check_null_version (env : Env) (self : t) (name : string)
    (local_version : pyval) (payload info : list (string * pyval)) :
  get_package_version env self name = Ok local_version ->
  is_None local_version = false ->
  get_package_info env name = Ok (PyDict payload) ->
  dict_get "info" payload = Some (PyDict info) ->
  dict_get "version" info = Some PyNone ->
  package_update_available env self name
  = Raise (ValueError "Invalid package data." None).
Proof.
  intros Hl Hn Hr Hi Hv. unfold package_update_available.
  rewrite Hl. cbn [bind]. rewrite Hn.
  rewrite (EnvManagerFacts.get_remote_package_ok _ _ _ Hr). simpl.
  rewrite Hi. simpl. rewrite Hv. reflexivity.
Qed.

Lemma update_check_null_version_witness :
  package_update_available (host (printing listing_text 0) index_null_version)
    venv "requests"
  = Raise (ValueError "Invalid package data." None).
Proof.
  apply (update_check_null_version
           (host (printing listing_text 0) index_null_version) venv "requests"
           (PyStr "2.31.0") [("info", PyDict [("version", PyNone)])]
           [("version", PyNone)]);
    reflexivity.
Defined.

(** X16.  A payload whose [info] is null, a number or a boolean makes
    the update check raise a [TypeError], not the [ValueError] of
    invalid package data. *)
Theorem update_check_info_not_a_container (env : Env) (self : t) (name : string)
    (local_version info : pyval) (payload : list (string * pyval)) :
  get_package_version env self name = Ok local_version ->
  is_None local_version = false ->
  get_package_info env name = Ok (PyDict payload) ->
  dict_get "info" payload = Some info ->
  not_a_container info = true ->
  exists msg, package_update_available env self name = Raise (TypeError msg).
Proof.
  intros Hl Hn Hr Hi Hc. unfold package_update_available.
  rewrite Hl. cbn [bind]. rewrite Hn.
  rewrite (EnvManagerFacts.get_remote_package_ok _ _ _ Hr). simpl.
  rewrite Hi. simpl.
  destruct info; try discriminate; simpl; eexists; reflexivity.
Qed.

Lemma update_check_info_not_a_container_witness :
  exists msg,
    package_update_available (host (printing listing_text 0) index_null_info)
      venv "requests"
    = Raise (TypeError msg).
Proof.
  apply (update_check_info_not_a_container
           (host (printing listing_text 0) index_null_info) venv "requests"
           (PyStr "2.31.0") PyNone [("info", PyNone)]);
    reflexivity.
Defined.

(** *** Construction *)

(** X17.  A manager that was constructed has the root it was given and
    an interpreter path that is a file; resolving the interpreter again
    gives the same path and constructing it again gives the same
    manager. *)
Theorem init_postcondition (env : Env) (root : string) (self : t) :
  init env root = Ok self ->
  env_path self = root
  /\ os_path_isfile env (python_exe self) = true
  /\ get_python_executable env (env_path self) = Ok (python_exe self)
  /\ init env (env_path self) = Ok self.
Proof.
  unfold init, get_python_executable.
  destruct (os_path_isfile env (python_exe_path env root)) eqn:Hf; simpl;
    [|discriminate].
  intros [= <-]. simpl. rewrite Hf. simpl. auto.
Qed.

Lemma init_postcondition_witness :
  env_path venv = "/venv"
  /\ os_path_isfile (host (printing listing_text 0) index_ok) (python_exe venv) = true
  /\ get_python_executable (host (printing listing_text 0) index_ok) (env_path venv)
     = Ok (python_exe venv)
  /\ init (host (printing listing_text 0) index_ok) (env_path venv) = Ok venv.
Proof.
  apply (init_postcondition (host (printing listing_text 0) index_ok) "/venv" venv).
  reflexivity.
Defined.

End ManagerExtras.

(** ** The subprocess runner *)

Import MoreExamples.

Section RunnerExtras.

Local Open Scope nat_scope.
Local Open Scope list_scope.

Variable cap : nat.
Variable has_callback : stream -> bool.

Lemma string_of_list_ascii_nonempty l :
  l <> [] -> string_of_list_ascii l <> EmptyString.
Proof. destruct l; [congruence|discriminate]. Qed.

Lemma lines_from_nonempty acc chars l :
  In l (lines_from acc chars) -> l <> [].
Proof.
  revert acc. induction chars as [|c rest IH]; intros acc; simpl.
  - destruct acc; simpl; [tauto|]. intros [<-|[]]. discriminate.
  - destruct (Ascii.eqb c newline); simpl.
    + intros [<-|H]; [destruct acc; discriminate|eapply IH; eauto].
    + apply IH.
Qed.

Lemma string_of_list_ascii_app a b :
  string_of_list_ascii (a ++ b)
  = (string_of_list_ascii a ++ string_of_list_ascii b)%string.
Proof. induction a as [|c a IH]; simpl; [reflexivity|]. rewrite IH. reflexivity. Qed.

Lemma append_empty_r (s : string) : (s ++ EmptyString)%string = s.
Proof. induction s as [|c s IH]; simpl; [reflexivity|]. rewrite IH. reflexivity. Qed.

Lemma concat_empty_cons (x : string) (xs : list string) :
  String.concat EmptyString (x :: xs)
  = (x ++ String.concat EmptyString xs)%string.
Proof.
  destruct xs as [|y ys]; simpl; [rewrite append_empty_r|]; reflexivity.
Qed.

Lemma concat_lines_from acc chars :
  String.concat EmptyString (map string_of_list_ascii (lines_from acc chars))
  = string_of_list_ascii (acc ++ chars).
Proof.
  revert acc. induction chars as [|c rest IH]; intros acc.
  - rewrite app_nil_r. destruct acc; reflexivity.
  - cbn [lines_from].
    replace (acc ++ c :: rest) with ((acc ++ [c]) ++ rest)
      by (rewrite <- app_assoc; reflexivity).
    destruct (Ascii.eqb c newline).
    + cbn [map]. rewrite concat_empty_cons, IH. cbn [app].
      rewrite <- string_of_list_ascii_app. reflexivity.
    + apply IH.
Qed.

(** Every call a step adds goes to a callback that was given. *)
Lemma step_calls a st st' :
  step_of cap has_callback a st = Some st' ->
  calls st' = calls st
  \/ exists x line, has_callback x = true /\ calls st' = calls st ++ [(x, line)].
Proof.
  intros H.
  destruct st as [td ex po pe [so pao] [se pae] cs m].
  destruct a as [|[]|]; simpl in *;
    unfold child_step, reader_step, main_step, deliver, is_finished in H;
    simpl in H;
    repeat (match type of H with
            | context [match ?x with _ => _ end] => destruct x eqn:?
            end; simpl in H; try discriminate H);
    injection H as <-;
    repeat match goal with s : stream |- _ => destruct s end;
    simpl; auto; right; eauto.
Qed.

Lemma exec_calls sched st st' :
  exec cap has_callback sched st = Some st' ->
  Forall (fun c => has_callback (fst c) = true) (calls st) ->
  Forall (fun c => has_callback (fst c) = true) (calls st').
Proof.
  revert st. induction sched as [|a sched IH]; intros st; simpl.
  - intros [= <-]. auto.
  - destruct (step_of cap has_callback a st) as [st1|] eqn:E; [|discriminate].
    intros H HF. apply (IH _ H).
    destruct (step_calls _ _ _ E) as [-> | (x & line & Hx & ->)]; [exact HF|].
    apply Forall_app. split; [exact HF|]. constructor; [exact Hx|constructor].
Qed.

Lemma in_lines_to x line cs :
  In (x, line) cs -> In line (lines_to x cs).
Proof.
  intros H. unfold lines_to. apply in_map_iff. exists (x, line).
  split; [reflexivity|]. apply filter_In. split; [exact H|].
  destruct x; reflexivity.
Qed.

End RunnerExtras.

(** X18.  At every point of every interleaving, the lines a given
    callback has received so far, followed by the lines of its stream
    that are still in the reader, in the pipe or unwritten, are the
    lines the child emits on that stream: lines arrive in order, none
    skipped, none twice. *)
Theorem callbacks_follow_emission (cap : nat) (has_callback : stream -> bool)
    (p : process) (sched : list actor) (st : state) (x : stream) :
  exec cap has_callback sched (initial p) = Some st ->
  has_callback x = true ->
  emitted_lines x p = (lines_to x (calls st) ++ pending_lines x st)%list.
Proof.
  intros He Hx.
  destruct (exec_lines cap has_callback _ _ _ x He (Inv_initial p)) as [H _].
  rewrite (H Hx). destruct x; reflexivity.
Qed.

Lemma callbacks_follow_emission_witness :
  lines_to Stdout (calls midway) = [String "a" (String newline EmptyString)]
  /\ pending_lines Stdout midway = ["b"]
  /\ emitted_lines Stdout failing_child
     = (lines_to Stdout (calls midway) ++ pending_lines Stdout midway)%list.
Proof.
  split; [reflexivity|]. split; [reflexivity|].
  refine (callbacks_follow_emission 2
            (fun x => match x with Stdout => true | Stderr => false end)
            failing_child
            [Main; Main; Child; Reader Stdout; Child; Reader Stderr; Child;
             Reader Stdout; Child; Reader Stderr]
            midway Stdout _ _).
  - vm_compute. reflexivity.
  - reflexivity.
Defined.

(** X19.  Every callback call made at any point goes to a callback that
    was given, with a line that is not empty and that the child emitted
    on that stream. *)
Theorem every_call_is_an_emitted_line (cap : nat) (has_callback : stream -> bool)
    (p : process) (sched : list actor) (st : state) (x : stream) (line : string) :
  exec cap has_callback sched (initial p) = Some st ->
  In (x, line) (calls st) ->
  has_callback x = true
  /\ line <> EmptyString
  /\ In line (emitted_lines x p).
Proof.
  intros He Hin.
  assert (Hx : has_callback x = true).
  { pose proof (exec_calls cap has_callback _ _ _ He (Forall_nil _)) as HF.
    rewrite Forall_forall in HF. apply (HF _ Hin). }
  assert (Hl : In line (emitted_lines x p)).
  { destruct (exec_lines cap has_callback _ _ _ x He (Inv_initial p)) as [H _].
    specialize (H Hx).
    assert (Hi : emitted_lines x p
                 = (lines_to x (calls st) ++ pending_lines x st)%list).
    { rewrite H. destruct x; reflexivity. }
    rewrite Hi. apply in_or_app. left. apply in_lines_to, Hin. }
  split; [exact Hx|]. split; [|exact Hl].
  unfold emitted_lines in Hl. apply in_map_iff in Hl.
  destruct Hl as (l & <- & Hl).
  apply string_of_list_ascii_nonempty. eapply lines_from_nonempty; eauto.
Qed.

Lemma every_call_is_an_emitted_line_witness :
  calls midway = [(Stdout, String "a" (String newline EmptyString))]
  /\ String "a" (String newline EmptyString) <> EmptyString
  /\ In (String "a" (String newline EmptyString))
        (emitted_lines Stdout failing_child).
Proof.
  split; [reflexivity|].
  refine (proj2 (every_call_is_an_emitted_line 2
                   (fun x => match x with Stdout => true | Stderr => false end)
                   failing_child
                   [Main; Main; Child; Reader Stdout; Child; Reader Stderr; Child;
                    Reader Stdout; Child; Reader Stderr]
                   midway Stdout (String "a" (String newline EmptyString)) _ _)).
  - vm_compute. reflexivity.
  - simpl. left. reflexivity.
Defined.

(** X20.  When the call ends, the lines a given callback received,
    joined, are the whole text the child wrote on that stream. *)
Theorem callbacks_receive_the_whole_text (cap : nat) (env : Env)
    (args : list string) (has_callback : stream -> bool) (p : process)
    (sched : list actor) (r : result pyval) (cs : list (stream * string))
    (x : stream) :
  popen env args = Ok p ->
  run_subprocess_with_streams cap env args has_callback sched = Some (r, cs) ->
  has_callback x = true ->
  String.concat EmptyString (lines_to x cs) = stream_text x p.
Proof.
  intros Hp Hrun Hx. unfold run_subprocess_with_streams in Hrun. rewrite Hp in Hrun.
  destruct (exec cap has_callback sched (initial p)) as [st|] eqn:He; [|discriminate].
  destruct (returned st) eqn:Hr; [|discriminate].
  injection Hrun as _ <-.
  rewrite (returned_calls cap has_callback p sched st x He Hr), Hx.
  unfold emitted_lines. rewrite concat_lines_from. reflexivity.
Qed.

Lemma callbacks_receive_the_whole_text_witness :
  String.concat EmptyString
    [String "a" (String newline EmptyString); "b"]
  = stream_text Stdout failing_child.
Proof.
  refine (callbacks_receive_the_whole_text 2 (host failing_child index_ok)
            ["/venv/bin/python"; "-m"; "pip"; "check"] (fun _ => true)
            failing_child
            (first_schedule 2 (fun _ => true) 40 (initial failing_child))
            _ [(Stdout, String "a" (String newline EmptyString));
               (Stderr, String "E" (String newline EmptyString));
               (Stdout, "b")] Stdout _ _ _); reflexivity.
Defined.

(** X21.  Once the call has reached its end no actor can take a step:
    both reader threads have finished and the child has exited. *)
Theorem nothing_runs_after_return (cap : nat) (has_callback : stream -> bool)
    (p : process) (sched : list actor) (st : state) (a : actor) :
  exec cap has_callback sched (initial p) = Some st ->
  returned st = true ->
  step_of cap has_callback a st = None.
Proof.
  intros He Hr.
  pose proof (exec_Inv cap has_callback _ _ _ He (Inv_initial p)) as HI.
  destruct (returned_drained st HI Hr) as (Hex & Ht & Hpo & Hpe & Hro & Hre).
  unfold returned in Hr.
  destruct a as [|x|]; simpl.
  - unfold child_step. rewrite Hex. reflexivity.
  - unfold reader_step. destruct x; simpl; rewrite ?Hro, ?Hre; reflexivity.
  - unfold main_step. destruct (main st); try discriminate. reflexivity.
Qed.

Lemma nothing_runs_after_return_witness :
  exists st,
    exec 4 (fun _ => true)
      [Main; Main; Child; Reader Stdout; Reader Stderr; Main; Main; Main]
      (initial {| output := []; returncode := 0 |}) = Some st
    /\ step_of 4 (fun _ => true) (Reader Stderr) st = None.
Proof.
  eexists. split; [reflexivity|].
  refine (nothing_runs_after_return 4 (fun _ => true)
            {| output := []; returncode := 0 |}
            [Main; Main; Child; Reader Stdout; Reader Stderr; Main; Main; Main]
            _ (Reader Stderr) _ _); reflexivity.
Defined.

(** ** Creating environments and locating interpreters *)

Module FactoryExtras.
Import EnvManager EnvFactory MoreExamples.

(** X22.  For a path that is a directory, [get_or_create_virtual_env]
    creates nothing and prints nothing: it returns the manager of that
    directory when the interpreter is there and raises a [ValueError]
    naming the directory when it is not. *)
Theorem existing_directory_is_wrapped (env : Env) (b : Builder) (path : string) :
  os_path_isdir b path = true ->
  get_or_create_virtual_env env b path
  = ([],
     if os_path_isfile env (python_exe_path env path)
     then Ok (env, {| env_path := path; python_exe := python_exe_path env path |})
     else Raise (ValueError
                   ("Directory " ++ path
                      ++ " does not contain a valid virtual environment.")
                   None)).
Proof.
  intros Hd. unfold get_or_create_virtual_env. rewrite Hd. cbn [negb].
  unfold init, get_python_executable, try_except.
  destruct (os_path_isfile env (python_exe_path env path)); reflexivity.
Qed.

Lemma existing_directory_is_wrapped_witness :
  get_or_create_virtual_env old_host sample_builder "/data"
  = ([],
     if os_path_isfile old_host (python_exe_path old_host "/data")
     then Ok (old_host,
              {| env_path := "/data";
                 python_exe := python_exe_path old_host "/data" |})
     else Raise (ValueError
                   "Directory /data does not contain a valid virtual environment."
                   None)).
Proof.
  apply (existing_directory_is_wrapped old_host sample_builder "/data").
  reflexivity.
Defined.

(** X23.  For a path that is not a directory, when the builder returns
    and leaves no interpreter, the [FileNotFoundError] of the
    constructor is raised as it is, after both messages were printed. *)
Theorem created_without_interpreter_raises (env : Env) (b : Builder)
    (path : string) (env' : Env) :
  os_path_isdir b path = false ->
  builder_create b path = Ok env' ->
  os_path_isfile env' (python_exe_path env' path) = false ->
  get_or_create_virtual_env env b path
  = (["Creating virtual environment at " ++ path ++ "...";
      "Virtual environment created."],
     Raise (FileNotFoundError
              ("Python executable not found in virtual environment at " ++ path))).
Proof.
  intros Hd Hb Hf. unfold get_or_create_virtual_env, create_virtual_env.
  rewrite Hd, Hb. cbn [negb].
  unfold init, get_python_executable. rewrite Hf. reflexivity.
Qed.

Lemma created_without_interpreter_raises_witness :
  get_or_create_virtual_env old_host broken_builder "/new"
  = (["Creating virtual environment at /new...";
      "Virtual environment created."],
     Raise (FileNotFoundError
              "Python executable not found in virtual environment at /new")).
Proof.
  apply (created_without_interpreter_raises old_host broken_builder "/new" old_host);
    reflexivity.
Defined.

(** X24.  Whenever [get_or_create_virtual_env] returns a manager, its
    root is the path asked for and its interpreter is a file of the host
    as the call left it; the builder ran exactly when the path was not a
    directory. *)
Theorem returned_manager_is_valid (env : Env) (b : Builder) (path : string)
    (out : list string) (env' : Env) (self : t) :
  get_or_create_virtual_env env b path = (out, Ok (env', self)) ->
  env_path self = path
  /\ os_path_isfile env' (python_exe self) = true
  /\ init env' path = Ok self
  /\ (if os_path_isdir b path
      then env' = env /\ out = []
      else builder_create b path = Ok env'
           /\ out = ["Creating virtual environment at " ++ path ++ "...";
                     "Virtual environment created."]).
Proof.
  unfold get_or_create_virtual_env, create_virtual_env.
  destruct (os_path_isdir b path); cbn [negb].
  - unfold try_except.
    destruct (init env path) as [m|e] eqn:Hi; cbn [bind].
    + intros [= <- <- <-].
      pose proof Hi as Hi'. unfold init, get_python_executable in Hi'.
      destruct (os_path_isfile env (python_exe_path env path)) eqn:Hf;
        [|discriminate].
      simpl in Hi'. injection Hi' as <-. simpl. auto.
    + destruct (isinstance e CFileNotFoundError); intros H; discriminate H.
  - destruct (builder_create b path) as [e1|e]; [|intros H; discriminate H].
    destruct (init e1 path) as [m|e] eqn:Hi; cbn [bind];
      [|intros H; discriminate H].
    intros [= <- <- <-].
    pose proof Hi as Hi'. unfold init, get_python_executable in Hi'.
    destruct (os_path_isfile e1 (python_exe_path e1 path)) eqn:Hf;
      [|discriminate].
    simpl in Hi'. injection Hi' as <-. simpl. auto.
Qed.

Lemma returned_manager_is_valid_witness :
  let self := {| env_path := "/new"; python_exe := "/new/bin/python" |} in
  env_path self = "/new"
  /\ os_path_isfile new_host (python_exe self) = true
  /\ init new_host "/new" = Ok self.
Proof.
  intros self.
  destruct (returned_manager_is_valid old_host sample_builder "/new"
              ["Creating virtual environment at /new...";
               "Virtual environment created."]
              new_host self eq_refl) as (H1 & H2 & H3 & _).
  auto.
Defined.

End FactoryExtras.

Module LocateExtras.
Import SystemPythons MoreExamples.

Section Facts.
Variable V : Type.
Variable env : Env.
Variable lib : TextLib V.




End Facts.



(** X26.  [locate_system_pythons] raises exactly when the [which] (or
    [where]) command cannot be started, and then a [ValueError("Failed
    to locate system Python.")] chained from that error; no candidate
    can make it raise. *)
Theorem locate_system_pythons_raises_iff (V : Type) (env : Env) (lib : TextLib V)
    (e : exn) :
  locate_system_pythons V env lib = Raise e
  <-> exists c, popen env [locate_command V lib; "python"] = Raise c
                /\ e = ValueError "Failed to locate system Python." (Some c).
Proof.
  unfold locate_system_pythons, subprocess_run, try_except.
  destruct (popen env _) as [p|c]; cbn [bind andb isinstance].
  - split; [intros H; discriminate H|].
    intros (c & H & _). discriminate H.
  - split.
    + intros [= <-]. exists c. auto.
    + intros (c' & [= <-] & ->). reflexivity.
Qed.

End LocateExtras.
